(** * EchoPlusPlus: the [Message] frame codec of [headers/message.hpp]

    A [Message] owns a fixed buffer [char data[header + maxBytes]] and a
    [size_t bodyLength_].  The buffer is modelled as a [list ascii], the
    length field as a [Z] together with the wrap-around of the C++ integer
    conversions ([size_t] is 64 bits wide, [int] is 32 bits wide).
    Operations of the class that can leave defined behaviour (a buffer
    overrun, a thrown [std::out_of_range]) return [option]. *)

From Stdlib Require Import ZArith List Ascii Bool Lia.
From Stdlib Require String.
Import ListNotations.
Import String.StringSyntax.
Delimit Scope string_scope with string.

Local Open Scope char_scope.
Local Open Scope Z_scope.

(** ** A small error monad for the fallible operations *)

Definition bind {A B : Type} (a : option A) (k : A -> option B) : option B :=
  match a with
  | Some x => k x
  | None => None
  end.

Notation "x <- a ;; k" := (bind a (fun x => k))
  (at level 61, a at next level, right associativity).

(** ** Machine integers *)

Module MachInt.

Definition size_t_modulus : Z := 2 ^ 64.
Definition int_modulus : Z := 2 ^ 32.

(** Conversion to [size_t]: reduction modulo [2^64]. *)
Definition to_size_t (z : Z) : Z := z mod size_t_modulus.

(** Conversion to [int]: reduction modulo [2^32] into [-2^31, 2^31). *)
Definition to_int (z : Z) : Z :=
  (z + int_modulus / 2) mod int_modulus - int_modulus / 2.

End MachInt.
Import MachInt.

(** ** The C library routines the class calls *)

Module CLib.

Definition NUL : ascii := Ascii.zero.

Definition code (c : ascii) : Z := Z.of_N (N_of_ascii c).

(** [isspace] in the C locale: space, and [\t \n \v \f \r]. *)
Definition isspace (c : ascii) : bool :=
  (code c =? 32) || ((9 <=? code c) && (code c <=? 13)).

Definition isdigit (c : ascii) : bool :=
  (48 <=? code c) && (code c <=? 57).

Definition digit_val (c : ascii) : Z := code c - 48.

Definition digit_char (d : Z) : ascii := ascii_of_N (Z.to_N (48 + d)).

Fixpoint skip_space (s : list ascii) : list ascii :=
  match s with
  | c :: s' => if isspace c then skip_space s' else s
  | [] => []
  end.

(** The digit loop of [atoi]: it stops at the first character that is
    not a digit, the terminating NUL included. *)
Fixpoint read_digits (acc : Z) (s : list ascii) : Z :=
  match s with
  | c :: s' => if isdigit c then read_digits (10 * acc + digit_val c) s' else acc
  | [] => acc
  end.

(** [atoi]: leading white space, an optional sign, then decimal digits.
    The result is kept as an unbounded [Z]; the class only calls it on a
    buffer of [header] characters, see [atoi_header_range]. *)
Definition atoi (s : list ascii) : Z :=
  match skip_space s with
  | "-" :: s' => - read_digits 0 s'
  | "+" :: s' => read_digits 0 s'
  | s' => read_digits 0 s'
  end.

(** [strncpy(dest, src, n)] seen as the [n] characters it leaves in
    [dest]: the characters of [src] up to its first NUL, then NULs. *)
Fixpoint strncpy (src : list ascii) (n : nat) {struct n} : list ascii :=
  match n with
  | O => []
  | S n' =>
      match src with
      | c :: src' =>
          if Ascii.eqb c NUL then repeat NUL n else c :: strncpy src' n'
      | [] => repeat NUL n
      end
  end.

(** [memcpy(dest + off, src, n)]: the new contents of [dest].  Reading
    past [src] or writing past [dest] is undefined. *)
Definition memcpy (dest : list ascii) (off : nat) (src : list ascii) (n : nat)
  : option (list ascii) :=
  if ((n <=? length src)%nat && (off + n <=? length dest)%nat)%bool
  then Some (firstn off dest ++ firstn n src ++ skipn (off + n) dest)
  else None.

(** The decimal digits of a non-negative number, most significant first.
    An [int] has at most ten of them, which is the fuel [decimal] gives. *)
Fixpoint digits_rec (fuel : nat) (n : Z) (acc : list ascii) : list ascii :=
  match fuel with
  | O => acc
  | S k =>
      let acc' := digit_char (n mod 10) :: acc in
      if n <? 10 then acc' else digits_rec k (n / 10) acc'
  end.

Definition decimal (n : Z) : list ascii := digits_rec 10 n [].

(** The conversion [%d]. *)
Definition fmt_d (v : Z) : list ascii :=
  if v <? 0 then "-" :: decimal (- v) else decimal v.

(** The conversion [%4d]: [%d] padded on the left with spaces up to a
    minimum width of 4; longer output is not cut. *)
Definition fmt_4d (v : Z) : list ascii :=
  let s := fmt_d v in repeat " " (4 - length s) ++ s.

(** [std::string::substr(pos, n)]: throws when [pos] is past the end. *)
Definition substr (s : list ascii) (pos n : Z) : option (list ascii) :=
  let size := Z.of_nat (length s) in
  if size <? pos then None
  else Some (firstn (Z.to_nat (Z.min n (size - pos))) (skipn (Z.to_nat pos) s)).

End CLib.
Import CLib.

(** ** The class [Message] *)

Definition maxBytes : Z := 512.
Definition header : Z := 4.

Record Message : Type := mkMessage {
  data : list ascii;
  bodyLength_ : Z
}.

(** The buffer has [header + maxBytes] characters and the length field is a
    [size_t]. *)
Definition wf (m : Message) : Prop :=
  Z.of_nat (length (data m)) = header + maxBytes /\
  0 <= bodyLength_ m < size_t_modulus.

(** [Message()]: the buffer is left uninitialised, [raw] is whatever it
    holds. *)
Definition Message_default (raw : list ascii) : Message :=
  {| data := raw; bodyLength_ := 0 |}.

Definition getNewBodyLength (message : list ascii) : Z :=
  let newLength := Z.of_nat (length message) in
  if newLength >? maxBytes then maxBytes else newLength.

(** [sprintf] writes the formatted text and a NUL into
    [new_header[header + 1]]; a longer text overruns that array. *)
Definition encodeHeader (m : Message) : option Message :=
  let text := fmt_4d (to_int (bodyLength_ m)) in
  if (Z.of_nat (length text) + 1 <=? header + 1)
  then
    d <- memcpy (data m) 0 (text ++ [NUL]) (Z.to_nat header) ;;
    Some {| data := d; bodyLength_ := bodyLength_ m |}
  else None.

(** [Message(std::string message)], on a buffer that holds [raw]. *)
Definition Message_of_string (raw : list ascii) (message : list ascii)
  : option Message :=
  let m0 := {| data := raw; bodyLength_ := getNewBodyLength message |} in
  m1 <- encodeHeader m0 ;;
  d <- memcpy (data m1) (Z.to_nat header) (message ++ [NUL])
         (Z.to_nat (bodyLength_ m1)) ;;
  Some {| data := d; bodyLength_ := bodyLength_ m1 |}.

(** [std::string result(data, length)] reads [length] characters of
    [data]; [length] is an [int] that the constructor takes as a [size_t]. *)
Definition getData (m : Message) : option (list ascii) :=
  let len := to_int (to_size_t (header + bodyLength_ m)) in
  let n := to_size_t len in
  if n <=? Z.of_nat (length (data m))
  then Some (firstn (Z.to_nat n) (data m))
  else None.

Definition getBody (m : Message) : option (list ascii) :=
  dataStr <- getData m ;;
  substr dataStr header (bodyLength_ m).

(** The text [atoi] is run on: [header] characters of [data], then NUL. *)
Definition header_text (m : Message) : list ascii :=
  strncpy (data m) (Z.to_nat header) ++ [NUL].

Definition decodeHeader (m : Message) : bool * Message :=
  let headerValue := atoi (header_text m) in
  if headerValue >? maxBytes
  then (false, {| data := data m; bodyLength_ := 0 |})
  else (true, {| data := data m; bodyLength_ := to_size_t headerValue |}).

Definition getBodyLength (m : Message) : Z := bodyLength_ m.

(** ** Notions used to state the properties *)

(** The local [headerValue] of [decodeHeader]. *)
Definition headerValue (m : Message) : Z := atoi (header_text m).

(** The header region of the buffer. *)
Definition header_field (m : Message) : list ascii :=
  firstn (Z.to_nat header) (data m).

(** The body region of the buffer. *)
Definition body_region (m : Message) : list ascii :=
  skipn (Z.to_nat header) (data m).

(** The value of a digit string, most significant digit first. *)
Definition digit_step (a : Z) (d : ascii) : Z := 10 * a + digit_val d.

Definition numeral_value (ds : list ascii) : Z :=
  fold_left (fun a c => 10 * a + digit_val c) ds 0.

(** The wording of the header format: [field] has exactly 4 characters, the
    decimal digits of [n] at the right, spaces before them, and no zero in
    front of the digits (a lone ["0"] stands for zero). *)
Definition right_justified (n : Z) (field : list ascii) : Prop :=
  length field = 4%nat /\
  exists pad ds,
    field = pad ++ ds /\
    Forall (fun c => c = " ") pad /\
    Forall (fun c => isdigit c = true) ds /\
    ds <> [] /\
    numeral_value ds = n /\
    (forall ds', ds = "0" :: ds' -> ds' = []).

(** Text literals for the examples. *)
Definition chars (s : String.string) : list ascii :=
  String.list_ascii_of_string s.
Arguments chars s%_string.

(** A receive buffer that starts with [hdr]; the rest is filled with [c]. *)
Definition buffer_with (hdr : list ascii) (c : ascii) : list ascii :=
  hdr ++ repeat c (Z.to_nat (header + maxBytes) - length hdr).

(** A receive buffer whose header field reads ["-1  "]. *)
Definition negative_frame : Message :=
  Message_default (buffer_with (chars "-1  ") "x").

(** The frame that [Message(std::string)] builds from the payload [p] on a
    buffer that held [raw], in closed form (see [built_ok]). *)
Definition built (raw p : list ascii) : Message :=
  {| data := fmt_4d (getNewBodyLength p)
               ++ firstn (Z.to_nat (getNewBodyLength p)) p
               ++ skipn (4 + Z.to_nat (getNewBodyLength p)) raw;
     bodyLength_ := getNewBodyLength p |}.

(** ** Console output *)

(** [std::cout], as the characters written to it so far. *)
Definition ostream : Type := list ascii.

(** What [std::endl] inserts. *)
Definition endl : list ascii := ["010"].

(** [printMessage]: the text, the string that [getData] returns, and a
    line end are appended to [std::cout]. *)
Definition printMessage (m : Message) (cout : ostream) : option ostream :=
  message <- getData m ;;
  Some (cout ++ chars "Message recieved: " ++ message ++ endl).

(** ** Sample runs *)

Example ex_hello :
  option_map (fun m => (firstn 9 (data m), bodyLength_ m))
    (Message_of_string (buffer_with [] "x") (chars "hello"))
  = Some (chars "   5hello", 5).
Proof. vm_compute. reflexivity. Qed.

Example ex_decode_512 :
  decodeHeader (Message_default (buffer_with (chars " 512") "x"))
  = (true, {| data := buffer_with (chars " 512") "x"; bodyLength_ := 512 |}).
Proof. vm_compute. reflexivity. Qed.

Example ex_decode_neg :
  bodyLength_ (snd (decodeHeader (Message_default (buffer_with (chars "-1  ") "x"))))
  = 18446744073709551615.
Proof. vm_compute. reflexivity. Qed.

(** ** Characters and digits *)

Section Characters.

Lemma code_range (c : ascii) : 0 <= code c < 256.
Proof.
  unfold code. pose proof (N_ascii_bounded c). lia.
Qed.

Lemma code_digit_char (d : Z) : 0 <= d < 10 -> code (digit_char d) = 48 + d.
Proof.
  intros Hd. unfold code, digit_char.
  rewrite N_ascii_embedding by lia. lia.
Qed.

Lemma isdigit_digit_char (d : Z) : 0 <= d < 10 -> isdigit (digit_char d) = true.
Proof.
  intros Hd. unfold isdigit. rewrite (code_digit_char d Hd).
  apply andb_true_iff. split; apply Z.leb_le; lia.
Qed.

Lemma digit_val_digit_char (d : Z) : 0 <= d < 10 -> digit_val (digit_char d) = d.
Proof.
  intros Hd. unfold digit_val. rewrite (code_digit_char d Hd). lia.
Qed.

Lemma isdigit_code (c : ascii) : isdigit c = true <-> 48 <= code c <= 57.
Proof.
  unfold isdigit. rewrite andb_true_iff, !Z.leb_le. tauto.
Qed.

Lemma isspace_code (c : ascii) :
  isspace c = true <-> code c = 32 \/ 9 <= code c <= 13.
Proof.
  unfold isspace. rewrite orb_true_iff, andb_true_iff, Z.eqb_eq, !Z.leb_le.
  tauto.
Qed.

Lemma code_inj (c c' : ascii) : code c = code c' -> c = c'.
Proof.
  unfold code. intros H. apply N2Z.inj in H.
  rewrite <- (ascii_N_embedding c), <- (ascii_N_embedding c'). now rewrite H.
Qed.

Lemma digit_not_space (c : ascii) : isdigit c = true -> isspace c = false.
Proof.
  intros H%isdigit_code. destruct (isspace c) eqn:E; [|reflexivity].
  apply isspace_code in E. lia.
Qed.

Lemma digit_not_NUL (c : ascii) : isdigit c = true -> c <> NUL.
Proof.
  intros H%isdigit_code ->. change (code NUL) with 0 in H. lia.
Qed.

Lemma NUL_not_digit : isdigit NUL = false.
Proof. reflexivity. Qed.

Lemma NUL_not_space : isspace NUL = false.
Proof. reflexivity. Qed.

End Characters.

(** ** [sprintf] and [atoi] *)

Section Decimal.

Lemma digits_rec_app (fuel : nat) (n : Z) (acc r : list ascii) :
  digits_rec fuel n acc ++ r = digits_rec fuel n (acc ++ r).
Proof.
  revert n acc. induction fuel as [|k IH]; intros n acc; simpl.
  - reflexivity.
  - destruct (n <? 10); [reflexivity|]. now rewrite IH.
Qed.

(** Reading back the digits of [n] gives [n]. *)
Lemma read_digits_digits_rec (fuel : nat) (n : Z) (acc : list ascii) :
  0 <= n < 10 ^ Z.of_nat fuel ->
  read_digits 0 (digits_rec fuel n acc) = read_digits n acc.
Proof.
  revert n acc. induction fuel as [|k IH]; intros n acc Hn.
  - simpl in *. now replace n with 0 by lia.
  - cbn [digits_rec].
    assert (Hm : 0 <= n mod 10 < 10) by (apply Z.mod_pos_bound; lia).
    destruct (n <? 10) eqn:E.
    + apply Z.ltb_lt in E. cbn [read_digits].
      rewrite isdigit_digit_char, digit_val_digit_char by assumption.
      rewrite Z.mod_small by lia. f_equal.
    + apply Z.ltb_ge in E. rewrite IH.
      * cbn [read_digits].
        rewrite isdigit_digit_char, digit_val_digit_char by assumption.
        f_equal. pose proof (Z.div_mod n 10). lia.
      * rewrite Nat2Z.inj_succ, Z.pow_succ_r in Hn by lia.
        split; [apply Z.div_pos; lia|].
        apply Z.div_lt_upper_bound; lia.
Qed.

Lemma digits_rec_all_digits (fuel : nat) (n : Z) (acc : list ascii) :
  Forall (fun c => isdigit c = true) acc ->
  Forall (fun c => isdigit c = true) (digits_rec fuel n acc).
Proof.
  revert n acc. induction fuel as [|k IH]; intros n acc Hacc; simpl.
  - assumption.
  - assert (Hd : isdigit (digit_char (n mod 10)) = true)
      by (apply isdigit_digit_char, Z.mod_pos_bound; lia).
    destruct (n <? 10); [|apply IH]; now constructor.
Qed.

(** A number below [10 ^ k] has at most [k] digits. *)
Lemma digits_rec_length (fuel : nat) :
  forall (k : nat) (n : Z) (acc : list ascii),
    (1 <= k <= fuel)%nat -> 0 <= n < 10 ^ Z.of_nat k ->
    (length acc < length (digits_rec fuel n acc) <= k + length acc)%nat.
Proof.
  induction fuel as [|f IH]; intros k n acc Hk Hn; [lia|].
  cbn [digits_rec]. destruct (n <? 10) eqn:E.
  - simpl. lia.
  - apply Z.ltb_ge in E.
    destruct k as [|[|k']]; [lia|simpl in Hn; lia|].
    specialize (IH (S k') (n / 10) (digit_char (n mod 10) :: acc)).
    cbn [length] in IH.
    assert (0 <= n / 10 < 10 ^ Z.of_nat (S k')).
    { rewrite (Nat2Z.inj_succ (S k')), Z.pow_succ_r in Hn by lia.
      split; [apply Z.div_pos; lia|apply Z.div_lt_upper_bound; lia]. }
    assert (1 <= S k' <= f)%nat by lia.
    specialize (IH ltac:(assumption) ltac:(assumption)). lia.
Qed.

(** The first digit is not a zero, unless the number is zero. *)
Lemma digits_rec_head (fuel : nat) (n : Z) (acc : list ascii) :
  0 < n < 10 ^ Z.of_nat fuel ->
  exists d rest, digits_rec fuel n acc = digit_char d :: rest /\ 1 <= d <= 9.
Proof.
  revert n acc. induction fuel as [|k IH]; intros n acc Hn.
  - simpl in Hn. lia.
  - cbn [digits_rec]. destruct (n <? 10) eqn:E.
    + apply Z.ltb_lt in E. exists (n mod 10), acc.
      rewrite Z.mod_small by lia. split; [reflexivity|lia].
    + apply Z.ltb_ge in E. apply IH.
      rewrite Nat2Z.inj_succ, Z.pow_succ_r in Hn by lia.
      split; [apply Z.div_str_pos; lia|apply Z.div_lt_upper_bound; lia].
Qed.

Lemma decimal_zero : decimal 0 = ["0"].
Proof. reflexivity. Qed.

Lemma skip_space_pad (k : nat) (s : list ascii) :
  skip_space (repeat " " k ++ s) = skip_space s.
Proof.
  induction k as [|k IH]; [reflexivity|]. simpl repeat. cbn [app skip_space].
  now change (isspace " ") with true.
Qed.

(** On a text that starts with a digit [atoi] is the digit loop. *)
Lemma atoi_digit_head (c : ascii) (s : list ascii) :
  isdigit c = true -> atoi (c :: s) = read_digits 0 (c :: s).
Proof.
  intros Hc. unfold atoi. cbn [skip_space].
  rewrite (digit_not_space c Hc).
  destruct c as [[] [] [] [] [] [] [] []]; try reflexivity;
    vm_compute in Hc; discriminate Hc.
Qed.

Lemma strncpy_prefix (h rest : list ascii) :
  Forall (fun c => c <> NUL) h -> strncpy (h ++ rest) (length h) = h.
Proof.
  induction 1 as [|c h Hc _ IH]; [reflexivity|].
  cbn [length app strncpy].
  destruct (Ascii.eqb_spec c NUL) as [->|_]; [contradiction|].
  now rewrite IH.
Qed.

(** [strncpy] looks at the first [n] characters of its source only. *)
Lemma strncpy_firstn (n : nat) (src : list ascii) :
  strncpy src n = strncpy (firstn n src) n.
Proof.
  revert src. induction n as [|n IH]; intros src; [reflexivity|].
  destruct src as [|c src]; [reflexivity|].
  cbn [firstn strncpy]. destruct (Ascii.eqb c NUL); [reflexivity|].
  now rewrite <- IH.
Qed.

Lemma strncpy_length (n : nat) (src : list ascii) :
  length (strncpy src n) = n.
Proof.
  revert src. induction n as [|n IH]; intros src; [reflexivity|].
  cbn [strncpy]. destruct src as [|c src].
  - now rewrite repeat_length.
  - destruct (Ascii.eqb c NUL); [now rewrite repeat_length|].
    simpl. now rewrite IH.
Qed.

End Decimal.

(** ** The header field written by [encodeHeader] *)

Section HeaderField.

Lemma to_int_small (z : Z) : - 2 ^ 31 <= z < 2 ^ 31 -> to_int z = z.
Proof.
  intros Hz. unfold to_int, int_modulus.
  change (2 ^ 32 / 2) with (2 ^ 31). change (2 ^ 32) with (2 ^ 31 + 2 ^ 31).
  rewrite Z.mod_small; lia.
Qed.

Lemma to_size_t_small (z : Z) : 0 <= z < 2 ^ 64 -> to_size_t z = z.
Proof.
  intros Hz. unfold to_size_t, size_t_modulus. now apply Z.mod_small.
Qed.

Variable n : Z.
Hypothesis n_range : 0 <= n <= 9999.

Lemma fmt_d_decimal : fmt_d n = decimal n.
Proof.
  unfold fmt_d. destruct (n <? 0) eqn:E; [apply Z.ltb_lt in E; lia|reflexivity].
Qed.

Lemma decimal_length : (1 <= length (decimal n) <= 4)%nat.
Proof.
  pose proof (digits_rec_length 10 4 n []) as H. cbn [length] in H.
  unfold decimal. specialize (H ltac:(lia)).
  change (10 ^ Z.of_nat 4) with 10000 in H. specialize (H ltac:(lia)). lia.
Qed.

Lemma fmt_4d_length : length (fmt_4d n) = 4%nat.
Proof.
  unfold fmt_4d. rewrite fmt_d_decimal, length_app, repeat_length.
  pose proof decimal_length. lia.
Qed.

Lemma decimal_all_digits : Forall (fun c => isdigit c = true) (decimal n).
Proof. apply digits_rec_all_digits. constructor. Qed.

Lemma fmt_4d_no_NUL : Forall (fun c => c <> NUL) (fmt_4d n).
Proof.
  unfold fmt_4d. rewrite fmt_d_decimal. apply Forall_app. split.
  - apply Forall_forall. intros c Hc%repeat_spec. now subst c.
  - eapply Forall_impl; [|apply decimal_all_digits].
    intros c Hc. now apply digit_not_NUL.
Qed.

Lemma read_digits_decimal (r : list ascii) :
  read_digits 0 (decimal n ++ NUL :: r) = n.
Proof.
  unfold decimal. rewrite digits_rec_app, read_digits_digits_rec.
  - reflexivity.
  - change (10 ^ Z.of_nat 10) with 10000000000. lia.
Qed.

(** [atoi] reads back what [%4d] wrote. *)
Lemma atoi_fmt_4d (r : list ascii) : atoi (fmt_4d n ++ NUL :: r) = n.
Proof.
  unfold fmt_4d. rewrite fmt_d_decimal, <- app_assoc.
  unfold atoi. rewrite skip_space_pad. fold (atoi (decimal n ++ NUL :: r)).
  pose proof decimal_length as Hl. pose proof decimal_all_digits as Hd.
  pose proof (read_digits_decimal r) as Hr.
  destruct (decimal n) as [|c ds]; [simpl in Hl; lia|].
  inversion Hd; subst. cbn [app] in *. now rewrite atoi_digit_head.
Qed.

End HeaderField.

(** ** The operations on well-formed frames *)

Section Frames.

Lemma firstn_exact {A : Type} (l r : list A) (k : nat) :
  length l = k -> firstn k (l ++ r) = l.
Proof.
  intros <-. rewrite firstn_app, Nat.sub_diag, firstn_all. simpl.
  apply app_nil_r.
Qed.

Lemma skipn_exact {A : Type} (l r : list A) (k : nat) :
  length l = k -> skipn k (l ++ r) = r.
Proof.
  intros <-. rewrite skipn_app, Nat.sub_diag, skipn_all. reflexivity.
Qed.

Lemma encodeHeader_small (m : Message) :
  (4 <= length (data m))%nat -> 0 <= bodyLength_ m <= 9999 ->
  encodeHeader m =
    Some {| data := fmt_4d (bodyLength_ m) ++ skipn 4 (data m);
            bodyLength_ := bodyLength_ m |}.
Proof.
  intros Hlen Hb. unfold encodeHeader.
  rewrite to_int_small by lia.
  pose proof (fmt_4d_length _ Hb) as Hf. rewrite Hf.
  change (Z.of_nat 4 + 1 <=? header + 1) with true. cbv iota.
  change (Z.to_nat header) with 4%nat.
  unfold memcpy. rewrite length_app, Hf. cbn [length Nat.add].
  replace (4 <=? 5)%nat with true by reflexivity.
  replace (4 <=? length (data m))%nat with true
    by (symmetry; apply Nat.leb_le; lia).
  cbn [andb bind]. rewrite (firstn_exact _ _ 4 Hf). reflexivity.
Qed.

Lemma getNewBodyLength_spec (message : list ascii) :
  getNewBodyLength message = Z.min (Z.of_nat (length message)) maxBytes.
Proof.
  unfold getNewBodyLength.
  destruct (Z.of_nat (length message) >? maxBytes) eqn:E.
  - apply Z.gtb_lt in E. lia.
  - rewrite Z.gtb_ltb in E. apply Z.ltb_ge in E. lia.
Qed.

(** The constructor never leaves defined behaviour: the header field is
    the formatted length, the body region the first [bodyLength_]
    characters of the payload, the rest of the buffer is untouched. *)
Lemma Message_of_string_ok (raw message : list ascii) :
  Z.of_nat (length raw) = header + maxBytes ->
  let len := getNewBodyLength message in
  Message_of_string raw message =
    Some {| data := fmt_4d len ++ firstn (Z.to_nat len) message
                      ++ skipn (4 + Z.to_nat len) raw;
            bodyLength_ := len |}.
Proof.
  intros Hraw len. unfold Message_of_string. fold len.
  assert (Hlen : 0 <= len <= 512 /\ len <= Z.of_nat (length message)).
  { unfold len. rewrite getNewBodyLength_spec. unfold maxBytes. lia. }
  unfold header, maxBytes in Hraw.
  rewrite encodeHeader_small; cbn [data bodyLength_]; try lia.
  cbn [bind data bodyLength_]. change (Z.to_nat header) with 4%nat.
  pose proof (fmt_4d_length len ltac:(lia)) as Hf.
  unfold memcpy. rewrite !length_app, Hf, length_skipn. cbn [length].
  replace (Z.to_nat len <=? length message + 1)%nat with true
    by (symmetry; apply Nat.leb_le; lia).
  replace (4 + Z.to_nat len <=? 4 + (length raw - 4))%nat with true
    by (symmetry; apply Nat.leb_le; lia).
  cbn [andb bind]. do 2 f_equal.
  rewrite (firstn_exact _ _ 4 Hf). f_equal.
  rewrite firstn_app, (proj2 (Nat.sub_0_le _ _)) by lia.
  cbn [firstn]. rewrite app_nil_r. f_equal.
  rewrite skipn_app, Hf, skipn_all2 by lia.
  replace (4 + Z.to_nat len - 4)%nat with (Z.to_nat len) by lia.
  cbn [app]. rewrite skipn_skipn. f_equal. lia.
Qed.

(** [decodeHeader] on a buffer whose header field is [%4d] of [n]. *)
Lemma header_text_fmt_4d (n : Z) (rest : list ascii) (b : Z) :
  0 <= n <= 9999 ->
  header_text {| data := fmt_4d n ++ rest; bodyLength_ := b |}
  = fmt_4d n ++ [NUL].
Proof.
  intros Hn. unfold header_text. cbn [data].
  change (Z.to_nat header) with 4%nat.
  pose proof (strncpy_prefix _ rest (fmt_4d_no_NUL n Hn)) as H.
  rewrite (fmt_4d_length n Hn) in H. now rewrite H.
Qed.

(** The views of a frame whose length field respects the cap. *)
Lemma getData_within_cap (m : Message) :
  Z.of_nat (length (data m)) = header + maxBytes ->
  0 <= bodyLength_ m <= maxBytes ->
  getData m = Some (firstn (Z.to_nat (header + bodyLength_ m)) (data m)).
Proof.
  unfold header, maxBytes. intros Hd Hb. unfold getData, header.
  rewrite (to_size_t_small (4 + _)) by lia.
  rewrite to_int_small by lia. rewrite to_size_t_small by lia.
  replace (4 + bodyLength_ m <=? Z.of_nat (length (data m))) with true
    by (symmetry; apply Z.leb_le; lia).
  reflexivity.
Qed.

Lemma getBody_within_cap (m : Message) :
  Z.of_nat (length (data m)) = header + maxBytes ->
  0 <= bodyLength_ m <= maxBytes ->
  getBody m = Some (firstn (Z.to_nat (bodyLength_ m)) (skipn 4 (data m))).
Proof.
  intros Hd Hb. unfold getBody. rewrite getData_within_cap by assumption.
  unfold header, maxBytes in *. cbn [bind]. unfold substr.
  rewrite length_firstn.
  replace (Z.of_nat (Nat.min _ _)) with (4 + bodyLength_ m) by lia.
  replace (4 + bodyLength_ m <? 4) with false
    by (symmetry; apply Z.ltb_ge; lia).
  f_equal. change (Z.to_nat 4) with 4%nat.
  replace (Z.min _ _) with (bodyLength_ m) by lia.
  rewrite skipn_firstn_comm.
  replace (Z.to_nat (4 + bodyLength_ m) - 4)%nat
    with (Z.to_nat (bodyLength_ m)) by lia.
  rewrite firstn_firstn. f_equal. lia.
Qed.

End Frames.

(** ** The parsing rules of [atoi] *)

Section Parsing.

(** The sign dispatch of [atoi], with the character tests spelled out. *)
Lemma atoi_cases (s : list ascii) :
  atoi s =
    match skip_space s with
    | [] => 0
    | c :: s' =>
        if Ascii.eqb c "-" then - read_digits 0 s'
        else if Ascii.eqb c "+" then read_digits 0 s'
        else read_digits 0 (c :: s')
    end.
Proof.
  unfold atoi. destruct (skip_space s) as [|c s']; [reflexivity|].
  destruct c as [[] [] [] [] [] [] [] []]; reflexivity.
Qed.

Lemma skip_space_app (ws s : list ascii) :
  Forall (fun c => isspace c = true) ws ->
  skip_space (ws ++ s) = skip_space s.
Proof.
  induction 1 as [|c ws Hc _ IH]; [reflexivity|].
  cbn [app skip_space]. now rewrite Hc.
Qed.

Lemma skip_space_suffix (s : list ascii) :
  exists ws, s = ws ++ skip_space s.
Proof.
  induction s as [|c s [ws IH]]; [now exists []|].
  cbn [skip_space]. destruct (isspace c).
  - exists (c :: ws). cbn [app]. now rewrite <- IH.
  - now exists [].
Qed.

Lemma read_digits_stop (ds : list ascii) (c : ascii) (r : list ascii) :
  Forall (fun d => isdigit d = true) ds -> isdigit c = false ->
  forall acc,
    read_digits acc (ds ++ c :: r)
    = fold_left (fun a d => 10 * a + digit_val d) ds acc.
Proof.
  intros Hds Hc. induction Hds as [|d ds Hd _ IH]; intros acc.
  - cbn [app read_digits fold_left]. now rewrite Hc.
  - cbn [app read_digits fold_left]. now rewrite Hd, IH.
Qed.

Lemma read_digits_all (ds : list ascii) :
  Forall (fun d => isdigit d = true) ds ->
  forall acc,
    read_digits acc ds = fold_left (fun a d => 10 * a + digit_val d) ds acc.
Proof.
  induction 1 as [|d ds Hd _ IH]; intros acc; [reflexivity|].
  cbn [read_digits fold_left]. now rewrite Hd, IH.
Qed.

Lemma read_digits_no_digit (s : list ascii) (acc : Z) :
  Forall (fun c => isdigit c = false) s -> read_digits acc s = acc.
Proof.
  destruct 1 as [|c s Hc _]; [reflexivity|].
  cbn [read_digits]. now rewrite Hc.
Qed.

(** A text without any digit parses as 0. *)
Lemma atoi_no_digit (s : list ascii) :
  Forall (fun c => isdigit c = false) s -> atoi s = 0.
Proof.
  intros Hs. rewrite atoi_cases.
  destruct (skip_space_suffix s) as [ws Hws].
  rewrite Hws in Hs. apply Forall_app in Hs as [_ Hs].
  destruct (skip_space s) as [|c s']; [reflexivity|].
  inversion Hs as [|? ? Hc Hs']; subst.
  destruct (Ascii.eqb c "-"); [now rewrite read_digits_no_digit|].
  destruct (Ascii.eqb c "+"); now rewrite read_digits_no_digit.
Qed.

Lemma strncpy_Forall (P : ascii -> Prop) (n : nat) (src : list ascii) :
  P NUL -> Forall P (firstn n src) -> Forall P (strncpy src n).
Proof.
  intros HN. revert src. induction n as [|n IH]; intros src Hsrc.
  - constructor.
  - assert (Hrep : forall k, Forall P (repeat NUL k)).
    { intros k. apply Forall_forall. intros c Hc%repeat_spec. now subst. }
    destruct src as [|c src]; cbn [strncpy]; [apply Hrep|].
    destruct (Ascii.eqb c NUL); [apply Hrep|].
    cbn [firstn] in Hsrc. inversion Hsrc; subst.
    constructor; [assumption|now apply IH].
Qed.

(** [atoi] never looks past a NUL. *)
Lemma read_digits_NUL (s r : list ascii) (acc : Z) :
  read_digits acc (s ++ NUL :: r) = read_digits acc (s ++ [NUL]).
Proof.
  revert acc. induction s as [|c s IH]; intros acc; [reflexivity|].
  cbn [app read_digits]. destruct (isdigit c); [apply IH|reflexivity].
Qed.

Lemma atoi_NUL (s r : list ascii) :
  atoi (s ++ NUL :: r) = atoi (s ++ [NUL]).
Proof.
  rewrite !atoi_cases.
  induction s as [|c s IH]; [reflexivity|].
  cbn [app skip_space]. destruct (isspace c); [exact IH|].
  destruct (Ascii.eqb c "-"); [now rewrite read_digits_NUL|].
  destruct (Ascii.eqb c "+"); [now rewrite read_digits_NUL|].
  apply (read_digits_NUL (c :: s)).
Qed.

End Parsing.

(** ** [decodeHeader] *)

Section Decode.

Lemma decodeHeader_unfold (m : Message) :
  decodeHeader m =
    if headerValue m >? maxBytes
    then (false, {| data := data m; bodyLength_ := 0 |})
    else (true, {| data := data m; bodyLength_ := to_size_t (headerValue m) |}).
Proof. reflexivity. Qed.

Lemma decodeHeader_data (m : Message) : data (snd (decodeHeader m)) = data m.
Proof.
  rewrite decodeHeader_unfold. now destruct (headerValue m >? maxBytes).
Qed.

Lemma header_text_field (m : Message) :
  header_text m = strncpy (header_field m) (Z.to_nat header) ++ [NUL].
Proof.
  unfold header_text, header_field. now rewrite <- strncpy_firstn.
Qed.

Lemma headerValue_field (m1 m2 : Message) :
  header_field m1 = header_field m2 -> headerValue m1 = headerValue m2.
Proof.
  intros H. unfold headerValue. now rewrite !header_text_field, H.
Qed.

(** What an accepted, non-negative header leaves in the frame. *)
Lemma decodeHeader_accept (m : Message) :
  0 <= headerValue m <= maxBytes ->
  decodeHeader m = (true, {| data := data m; bodyLength_ := headerValue m |}).
Proof.
  intros Hv. rewrite decodeHeader_unfold. unfold maxBytes in *.
  replace (headerValue m >? 512) with false
    by (symmetry; rewrite Z.gtb_ltb; apply Z.ltb_ge; lia).
  now rewrite to_size_t_small by (change (2 ^ 64) with 18446744073709551616; lia).
Qed.

(** The NUL padding of [strncpy] is invisible to [atoi]: the parsed value
    is the one of the header characters themselves. *)
Lemma atoi_strncpy (n : nat) :
  forall pre src,
    atoi (pre ++ strncpy src n ++ [NUL]) = atoi (pre ++ firstn n src ++ [NUL]).
Proof.
  induction n as [|n IH]; intros pre src; [reflexivity|].
  destruct src as [|c src]; cbn [strncpy firstn].
  - cbn [repeat app]. apply atoi_NUL.
  - destruct (Ascii.eqb_spec c NUL) as [->|_].
    + cbn [repeat app].
      transitivity (atoi (pre ++ [NUL])); [|symmetry]; apply atoi_NUL.
    + cbn [app]. specialize (IH (pre ++ [c]) src).
      now rewrite <- !app_assoc in IH.
Qed.

Lemma headerValue_parse (m : Message) :
  headerValue m = atoi (header_field m ++ [NUL]).
Proof. apply (atoi_strncpy _ []). Qed.

(** The digit loop on at most [k] characters before the NUL. *)
Lemma read_digits_bound (h : list ascii) :
  forall acc, 0 <= acc ->
    acc <= read_digits acc (h ++ [NUL])
        < (acc + 1) * 10 ^ Z.of_nat (length h).
Proof.
  induction h as [|c h IH]; intros acc Hacc.
  - cbn. lia.
  - cbn [app read_digits length]. rewrite Nat2Z.inj_succ, Z.pow_succ_r by lia.
    assert (Hp : 0 < 10 ^ Z.of_nat (length h)) by (apply Z.pow_pos_nonneg; lia).
    destruct (isdigit c) eqn:Hc.
    + apply isdigit_code in Hc. unfold digit_val.
      specialize (IH (10 * acc + (code c - 48)) ltac:(lia)). nia.
    + nia.
Qed.

Lemma skip_space_NUL (h : list ascii) :
  exists h', skip_space (h ++ [NUL]) = h' ++ [NUL] /\
             (length h' <= length h)%nat.
Proof.
  induction h as [|c h (h' & IH & Hl)].
  - now exists [].
  - cbn [app skip_space]. destruct (isspace c).
    + exists h'. split; [exact IH|]. simpl. lia.
    + now exists (c :: h).
Qed.

(** On a buffer of [header] characters [atoi] stays far inside the range
    of [int], so keeping its result in [Z] loses nothing. *)
Lemma atoi_header_range (m : Message) : -999 <= headerValue m <= 9999.
Proof.
  unfold headerValue, header_text.
  pose proof (strncpy_length (Z.to_nat header) (data m)) as Hlen.
  change (Z.to_nat header) with 4%nat in *.
  destruct (skip_space_NUL (strncpy (data m) 4)) as (h' & Hs & Hl).
  rewrite atoi_cases, Hs. rewrite Hlen in Hl.
  destruct h' as [|c h'']; [cbn; lia|]. cbn [app length] in *.
  assert (Hpow : forall k : nat, (k <= 3)%nat -> 0 < 10 ^ Z.of_nat k <= 1000).
  { intros k Hk. split; [apply Z.pow_pos_nonneg; lia|].
    change 1000 with (10 ^ 3). apply Z.pow_le_mono_r; lia. }
  pose proof (read_digits_bound h'' 0 ltac:(lia)) as Hb.
  pose proof (Hpow (length h'') ltac:(lia)) as Hp.
  destruct (Ascii.eqb c "-"); [lia|].
  destruct (Ascii.eqb c "+"); [lia|].
  pose proof (read_digits_bound (c :: h'') 0 ltac:(lia)) as Hb'.
  cbn [app length] in Hb'. rewrite Nat2Z.inj_succ, Z.pow_succ_r in Hb' by lia.
  lia.
Qed.

End Decode.

(** ** Frames built from a payload *)

Section Construction.

Variables raw p : list ascii.
Hypothesis raw_size : Z.of_nat (length raw) = header + maxBytes.

Lemma len_range :
  0 <= getNewBodyLength p <= maxBytes /\
  getNewBodyLength p <= Z.of_nat (length p).
Proof.
  rewrite getNewBodyLength_spec. unfold maxBytes. lia.
Qed.

Lemma built_ok : Message_of_string raw p = Some (built raw p).
Proof. now apply Message_of_string_ok. Qed.

Lemma built_size :
  Z.of_nat (length (data (built raw p))) = header + maxBytes.
Proof.
  pose proof len_range as Hl. unfold header, maxBytes in *.
  unfold built. cbn [data].
  rewrite !length_app, fmt_4d_length, length_firstn, length_skipn by lia.
  lia.
Qed.

Lemma built_body_region :
  body_region (built raw p)
  = firstn (Z.to_nat (getNewBodyLength p)) p
      ++ skipn (4 + Z.to_nat (getNewBodyLength p)) raw.
Proof.
  pose proof len_range as Hl. unfold maxBytes in Hl.
  unfold body_region, built. cbn [data]. change (Z.to_nat header) with 4%nat.
  apply skipn_exact, fmt_4d_length. lia.
Qed.

Lemma built_headerValue : headerValue (built raw p) = getNewBodyLength p.
Proof.
  pose proof len_range as Hl. unfold maxBytes in Hl.
  unfold headerValue, built.
  rewrite header_text_fmt_4d by lia. apply atoi_fmt_4d. lia.
Qed.

Lemma built_decode : decodeHeader (built raw p) = (true, built raw p).
Proof.
  pose proof len_range as Hl.
  rewrite decodeHeader_accept; rewrite built_headerValue; [reflexivity|lia].
Qed.

Lemma built_getBody :
  getBody (built raw p) = Some (firstn (Z.to_nat (getNewBodyLength p)) p).
Proof.
  pose proof len_range as Hl.
  rewrite getBody_within_cap; [|apply built_size|cbn [bodyLength_ built]; lia].
  change 4%nat with (Z.to_nat header). fold (body_region (built raw p)).
  rewrite built_body_region. cbn [bodyLength_ built].
  f_equal. apply firstn_exact. rewrite length_firstn. lia.
Qed.

End Construction.

(** ** The properties of the codec *)

(** C1 (round-trip identity).  For every payload [p] of at most 512
    characters, building a frame from [p] succeeds, decoding its header then
    succeeds, the decoded [bodyLength_] is the length of [p], and
    [getBody] returns [p]. *)
Theorem round_trip_identity (raw p : list ascii) :
  Z.of_nat (length raw) = header + maxBytes ->
  Z.of_nat (length p) <= maxBytes ->
  exists m,
    Message_of_string raw p = Some m /\
    fst (decodeHeader m) = true /\
    bodyLength_ (snd (decodeHeader m)) = Z.of_nat (length p) /\
    getBody (snd (decodeHeader m)) = Some p.
Proof.
  intros Hraw Hp. exists (built raw p).
  assert (Hlen : getNewBodyLength p = Z.of_nat (length p))
    by (rewrite getNewBodyLength_spec; lia).
  rewrite built_ok, built_decode by assumption. cbn [fst snd].
  rewrite built_getBody by assumption.
  cbn [built bodyLength_]. rewrite Hlen, Nat2Z.id, firstn_all.
  repeat split.
Qed.

Lemma round_trip_identity_witness :
  exists m,
    Message_of_string (buffer_with [] "x") (chars "hello") = Some m /\
    fst (decodeHeader m) = true /\
    bodyLength_ (snd (decodeHeader m)) = Z.of_nat (length (chars "hello")) /\
    getBody (snd (decodeHeader m)) = Some (chars "hello").
Proof.
  apply (round_trip_identity (buffer_with [] "x") (chars "hello")).
  - reflexivity.
  - vm_compute. discriminate.
Defined.

(** C5 (truncation law).  For every payload [p] longer than 512 characters,
    building a frame from [p] succeeds, [bodyLength_] is exactly 512, and
    the body region, as well as [getBody], is the first 512 characters
    of [p]. *)
Theorem truncation_law (raw p : list ascii) :
  Z.of_nat (length raw) = header + maxBytes ->
  Z.of_nat (length p) > maxBytes ->
  exists m,
    Message_of_string raw p = Some m /\
    bodyLength_ m = 512 /\
    body_region m = firstn 512 p /\
    getBody m = Some (firstn 512 p).
Proof.
  intros Hraw Hp. exists (built raw p).
  assert (Hlen : getNewBodyLength p = 512)
    by (rewrite getNewBodyLength_spec; unfold maxBytes in *; lia).
  rewrite built_ok, built_getBody, built_body_region by assumption.
  cbn [built bodyLength_]. rewrite Hlen.
  change (Z.to_nat 512) with 512%nat.
  rewrite skipn_all2 by (unfold header, maxBytes in Hraw; lia).
  rewrite app_nil_r. repeat split.
Qed.

Lemma truncation_law_witness :
  exists m,
    Message_of_string (buffer_with [] "x") (repeat "a" 600) = Some m /\
    bodyLength_ m = 512 /\
    body_region m = firstn 512 (repeat "a" 600) /\
    getBody m = Some (firstn 512 (repeat "a" 600)).
Proof.
  apply (truncation_law (buffer_with [] "x") (repeat "a" 600)).
  - reflexivity.
  - vm_compute. reflexivity.
Defined.

Lemma fmt_4d_right_justified (n : Z) :
  0 <= n <= 9999 -> right_justified n (fmt_4d n).
Proof.
  intros Hn. split; [now apply fmt_4d_length|].
  exists (repeat " " (4 - length (decimal n))), (decimal n).
  pose proof (decimal_all_digits n) as Hd.
  pose proof (decimal_length n Hn) as Hl.
  repeat split.
  - unfold fmt_4d. now rewrite fmt_d_decimal.
  - apply Forall_forall. now intros c Hc%repeat_spec.
  - exact Hd.
  - intros E. rewrite E in Hl. simpl in Hl. lia.
  - unfold numeral_value. rewrite <- read_digits_all by exact Hd.
    unfold decimal. rewrite read_digits_digits_rec; [reflexivity|].
    change (10 ^ Z.of_nat 10) with 10000000000. lia.
  - intros ds' E. destruct (Z.eq_dec n 0) as [->|Hnz].
    + rewrite decimal_zero in E. now inversion E.
    + destruct (digits_rec_head 10 n []) as (d & rest & Hhead & Hd1).
      { change (10 ^ Z.of_nat 10) with 10000000000. lia. }
      unfold decimal in E. rewrite Hhead in E. inversion E as [[Hc Hr]].
      apply (f_equal code) in Hc. rewrite code_digit_char in Hc by lia.
      change (code "0") with 48 in Hc. lia.
Qed.

(** [right_justified] leaves no freedom: a number has one field. *)
Section FieldUnique.

Lemma digit_val_range (d : ascii) : isdigit d = true -> 0 <= digit_val d <= 9.
Proof. intros H%isdigit_code. unfold digit_val. lia. Qed.

Lemma digit_val_inj (d d' : ascii) : digit_val d = digit_val d' -> d = d'.
Proof. unfold digit_val. intros H. apply code_inj. lia. Qed.

Lemma value_bounds (ds : list ascii) :
  Forall (fun d => isdigit d = true) ds ->
  forall a, 0 <= a ->
    a * 10 ^ Z.of_nat (length ds) <= fold_left digit_step ds a
      < (a + 1) * 10 ^ Z.of_nat (length ds).
Proof.
  induction 1 as [|d ds Hd _ IH]; intros a Ha.
  - cbn. lia.
  - cbn [fold_left length]. rewrite Nat2Z.inj_succ, Z.pow_succ_r by lia.
    apply digit_val_range in Hd. unfold digit_step at 2 4.
    specialize (IH (10 * a + digit_val d) ltac:(lia)).
    assert (0 < 10 ^ Z.of_nat (length ds)) by (apply Z.pow_pos_nonneg; lia).
    nia.
Qed.

Lemma value_inj (ds1 : list ascii) :
  forall ds2 a1 a2,
    Forall (fun d => isdigit d = true) ds1 ->
    Forall (fun d => isdigit d = true) ds2 ->
    length ds1 = length ds2 -> 0 <= a1 -> 0 <= a2 ->
    fold_left digit_step ds1 a1 = fold_left digit_step ds2 a2 ->
    a1 = a2 /\ ds1 = ds2.
Proof.
  induction ds1 as [|d1 ds1 IH]; intros [|d2 ds2] a1 a2 H1 H2 Hl Ha1 Ha2 Hv;
    try discriminate Hl.
  - now split.
  - inversion H1 as [|? ? Hd1 H1']; inversion H2 as [|? ? Hd2 H2']; subst.
    apply digit_val_range in Hd1, Hd2. cbn [fold_left] in Hv.
    destruct (IH ds2 (digit_step a1 d1) (digit_step a2 d2)) as [Ha ->];
      try assumption; try (unfold digit_step; lia); [now inversion Hl|].
    unfold digit_step in Ha. assert (a1 = a2) by lia. split; [assumption|].
    f_equal. apply digit_val_inj. lia.
Qed.

(** A digit string without a leading zero has as many digits as its value
    requires. *)
Lemma canonical_size (d : ascii) (ds : list ascii) :
  Forall (fun c => isdigit c = true) (d :: ds) -> d <> "0" ->
  10 ^ Z.of_nat (length ds) <= numeral_value (d :: ds)
    < 10 ^ Z.of_nat (S (length ds)).
Proof.
  intros Hds Hd. inversion Hds as [|? ? Hdig Hds']; subst.
  assert (1 <= digit_val d <= 9).
  { pose proof (digit_val_range d Hdig).
    destruct (Z.eq_dec (digit_val d) 0) as [E|]; [|lia].
    exfalso. apply Hd. now apply digit_val_inj. }
  unfold numeral_value. cbn [fold_left].
  pose proof (value_bounds ds Hds' (10 * 0 + digit_val d) ltac:(lia)) as Hb.
  unfold digit_step in Hb. rewrite Nat2Z.inj_succ, Z.pow_succ_r by lia.
  assert (0 < 10 ^ Z.of_nat (length ds)) by (apply Z.pow_pos_nonneg; lia).
  nia.
Qed.

Lemma canonical_unique (ds1 ds2 : list ascii) :
  Forall (fun c => isdigit c = true) ds1 ->
  Forall (fun c => isdigit c = true) ds2 ->
  ds1 <> [] -> ds2 <> [] ->
  (forall r, ds1 = "0" :: r -> r = []) ->
  (forall r, ds2 = "0" :: r -> r = []) ->
  numeral_value ds1 = numeral_value ds2 -> ds1 = ds2.
Proof.
  intros H1 H2 N1 N2 Z1 Z2 Hv.
  destruct ds1 as [|d1 r1]; [contradiction|].
  destruct ds2 as [|d2 r2]; [contradiction|]. clear N1 N2.
  assert (Hpos : forall k, 0 < 10 ^ Z.of_nat k)
    by (intros k; apply Z.pow_pos_nonneg; lia).
  destruct (ascii_dec d1 "0") as [->|D1], (ascii_dec d2 "0") as [->|D2].
  - now rewrite (Z1 r1 eq_refl), (Z2 r2 eq_refl).
  - rewrite (Z1 r1 eq_refl) in Hv. pose proof (canonical_size d2 r2 H2 D2).
    change (numeral_value ["0"]) with 0 in Hv. specialize (Hpos (length r2)). lia.
  - rewrite (Z2 r2 eq_refl) in Hv. pose proof (canonical_size d1 r1 H1 D1).
    change (numeral_value ["0"]) with 0 in Hv. specialize (Hpos (length r1)). lia.
  - pose proof (canonical_size d1 r1 H1 D1) as B1.
    pose proof (canonical_size d2 r2 H2 D2) as B2.
    assert (Hl : length r1 = length r2).
    { destruct (Nat.lt_trichotomy (length r1) (length r2)) as [L|[E|L]];
        [exfalso|exact E|exfalso].
      - assert (10 ^ Z.of_nat (S (length r1)) <= 10 ^ Z.of_nat (length r2))
          by (apply Z.pow_le_mono_r; lia).
        lia.
      - assert (10 ^ Z.of_nat (S (length r2)) <= 10 ^ Z.of_nat (length r1))
          by (apply Z.pow_le_mono_r; lia).
        lia. }
    apply (value_inj (d1 :: r1) (d2 :: r2) 0 0); try assumption; try lia.
    cbn [length]. now rewrite Hl.
Qed.

Lemma right_justified_unique (n : Z) (f1 f2 : list ascii) :
  right_justified n f1 -> right_justified n f2 -> f1 = f2.
Proof.
  intros [L1 (p1 & d1 & -> & P1 & D1 & N1 & V1 & Z1)]
         [L2 (p2 & d2 & -> & P2 & D2 & N2 & V2 & Z2)].
  assert (d1 = d2) as <- by (apply canonical_unique; try assumption; congruence).
  f_equal. rewrite !length_app in *.
  assert (Hp : forall p : list ascii,
            Forall (fun c => c = " ") p -> p = repeat " " (length p)).
  { induction 1 as [|c p -> _ IH]; [reflexivity|]. cbn. now rewrite <- IH. }
  rewrite (Hp p1 P1), (Hp p2 P2). f_equal. lia.
Qed.

End FieldUnique.

(** C6 (header format).  For every [bodyLength_] in [0, 9999],
    [encodeHeader] succeeds and writes exactly the 4 characters of the
    header region: the decimal digits of [bodyLength_], right-justified and
    padded on the left with spaces, never with zeros; the body region and
    the length field are left as they were.  In particular the header is
    ["   0"] for 0, ["   7"] for 7 and [" 512"] for 512. *)
Theorem header_format :
  (forall m, wf m -> 0 <= bodyLength_ m <= 9999 ->
     exists m',
       encodeHeader m = Some m' /\
       right_justified (bodyLength_ m) (header_field m') /\
       body_region m' = body_region m /\
       length (data m') = length (data m) /\
       bodyLength_ m' = bodyLength_ m) /\
  (forall m, wf m -> bodyLength_ m = 0 ->
     option_map header_field (encodeHeader m) = Some (chars "   0")) /\
  (forall m, wf m -> bodyLength_ m = 7 ->
     option_map header_field (encodeHeader m) = Some (chars "   7")) /\
  (forall m, wf m -> bodyLength_ m = 512 ->
     option_map header_field (encodeHeader m) = Some (chars " 512")).
Proof.
  assert (Henc : forall m, wf m -> 0 <= bodyLength_ m <= 9999 ->
            exists m', encodeHeader m = Some m' /\
              header_field m' = fmt_4d (bodyLength_ m) /\
              body_region m' = body_region m /\
              length (data m') = length (data m) /\
              bodyLength_ m' = bodyLength_ m).
  { intros m [Hd _] Hb. unfold header, maxBytes in Hd.
    rewrite encodeHeader_small by lia. eexists. split; [reflexivity|].
    pose proof (fmt_4d_length _ Hb) as Hf.
    unfold header_field, body_region. cbn [data bodyLength_].
    change (Z.to_nat header) with 4%nat.
    rewrite (firstn_exact _ _ 4 Hf), (skipn_exact _ _ 4 Hf).
    rewrite length_app, Hf, length_skipn. repeat split. lia. }
  split; [|repeat split].
  - intros m Hm Hb. destruct (Henc m Hm Hb) as (m' & He & Hh & Hrest).
    exists m'. rewrite Hh. split; [exact He|].
    split; [now apply fmt_4d_right_justified|exact Hrest].
  - intros m Hm Hb. destruct (Henc m Hm ltac:(lia)) as (m' & He & Hh & _).
    rewrite He. cbn [option_map]. now rewrite Hh, Hb.
  - intros m Hm Hb. destruct (Henc m Hm ltac:(lia)) as (m' & He & Hh & _).
    rewrite He. cbn [option_map]. now rewrite Hh, Hb.
  - intros m Hm Hb. destruct (Henc m Hm ltac:(lia)) as (m' & He & Hh & _).
    rewrite He. cbn [option_map]. now rewrite Hh, Hb.
Qed.

Lemma header_format_witness :
  exists m',
    encodeHeader {| data := buffer_with [] "x"; bodyLength_ := 42 |} = Some m' /\
    right_justified 42 (header_field m') /\
    body_region m' = repeat "x" 512 /\
    length (data m') = 516%nat /\
    bodyLength_ m' = 42.
Proof.
  apply (proj1 header_format {| data := buffer_with [] "x"; bodyLength_ := 42 |}).
  - split; [reflexivity|]. cbv. split; congruence.
  - cbv. split; congruence.
Defined.

(** C4 (decode rejection).  [decodeHeader] is a total function that
    returns [false] exactly when the value parsed from the header exceeds
    512; in that case it sets [bodyLength_] to 0 and leaves the buffer
    alone.  The header ["9999"] is such a case. *)
Theorem decode_rejection :
  (forall m, fst (decodeHeader m) = false <-> headerValue m > maxBytes) /\
  (forall m, headerValue m > maxBytes ->
     decodeHeader m = (false, {| data := data m; bodyLength_ := 0 |})) /\
  (forall m, header_field m = chars "9999" ->
     decodeHeader m = (false, {| data := data m; bodyLength_ := 0 |})).
Proof.
  assert (Hrej : forall m, headerValue m > maxBytes ->
            decodeHeader m = (false, {| data := data m; bodyLength_ := 0 |})).
  { intros m Hv. rewrite decodeHeader_unfold.
    now replace (headerValue m >? maxBytes) with true
      by (symmetry; apply Z.gtb_lt; lia). }
  repeat split.
  - rewrite decodeHeader_unfold.
    destruct (headerValue m >? maxBytes) eqn:E; cbn [fst]; [|discriminate].
    intros _. apply Z.gtb_lt in E. lia.
  - intros Hv. now rewrite Hrej.
  - exact Hrej.
  - intros m Hm. apply Hrej. unfold headerValue.
    rewrite header_text_field, Hm. vm_compute. reflexivity.
Qed.

Lemma decode_rejection_witness :
  decodeHeader (Message_default (buffer_with (chars "9999") "x"))
  = (false, {| data := buffer_with (chars "9999") "x"; bodyLength_ := 0 |}).
Proof.
  apply (proj2 (proj2 decode_rejection)
           (Message_default (buffer_with (chars "9999") "x"))).
  reflexivity.
Defined.

(** C7 (non-numeric header tolerance).  A frame whose 4 header characters
    are all spaces decodes with the value 0: [decodeHeader] returns [true],
    [bodyLength_] is 0 and [getBody] is empty.  The same holds for every
    header without a digit; [atoi] skips leading white space and stops at
    the first character that is not a digit, and gives 0 when what follows
    the white space is neither a sign nor a digit. *)
Theorem nonnumeric_header_tolerance :
  (forall m, wf m -> header_field m = chars "    " ->
     headerValue m = 0 /\
     decodeHeader m = (true, {| data := data m; bodyLength_ := 0 |}) /\
     getBody (snd (decodeHeader m)) = Some []) /\
  (forall m, wf m -> Forall (fun c => isdigit c = false) (header_field m) ->
     headerValue m = 0 /\
     decodeHeader m = (true, {| data := data m; bodyLength_ := 0 |}) /\
     getBody (snd (decodeHeader m)) = Some []) /\
  (forall ws s, Forall (fun c => isspace c = true) ws ->
     atoi (ws ++ s) = atoi s) /\
  (forall ds c r, ds <> [] -> Forall (fun d => isdigit d = true) ds ->
     isdigit c = false -> atoi (ds ++ c :: r) = numeral_value ds) /\
  (forall ws c r, Forall (fun a => isspace a = true) ws ->
     isspace c = false -> isdigit c = false -> c <> "-" -> c <> "+" ->
     atoi (ws ++ c :: r) = 0).
Proof.
  assert (Hzero : forall m, wf m -> headerValue m = 0 ->
            headerValue m = 0 /\
            decodeHeader m = (true, {| data := data m; bodyLength_ := 0 |}) /\
            getBody (snd (decodeHeader m)) = Some []).
  { intros m [Hd _] Hv. split; [exact Hv|].
    assert (Hdec : decodeHeader m
                   = (true, {| data := data m; bodyLength_ := 0 |})).
    { rewrite decodeHeader_accept; rewrite Hv; [reflexivity|].
      unfold maxBytes. lia. }
    split; [exact Hdec|]. rewrite Hdec. cbn [snd].
    rewrite getBody_within_cap; cbn [data bodyLength_];
      [reflexivity|exact Hd|unfold maxBytes; lia]. }
  split; [|split; [|split; [|split]]].
  - intros m Hm Hh. apply (Hzero m Hm). unfold headerValue.
    rewrite header_text_field, Hh. reflexivity.
  - intros m Hm Hh. apply (Hzero m Hm). apply atoi_no_digit.
    rewrite header_text_field. apply Forall_app. split; [|now constructor].
    apply strncpy_Forall; [reflexivity|].
    rewrite firstn_all2; [exact Hh|].
    unfold header_field. rewrite length_firstn. lia.
  - intros ws s Hws. unfold atoi. now rewrite skip_space_app.
  - intros ds c r Hne Hds Hc. destruct ds as [|d ds]; [contradiction|].
    inversion Hds; subst. cbn [app]. rewrite atoi_digit_head by assumption.
    now apply (read_digits_stop (d :: ds)).
  - intros ws c r Hws Hsp Hc Hminus Hplus.
    rewrite atoi_cases, skip_space_app by exact Hws.
    cbn [skip_space]. rewrite Hsp.
    destruct (Ascii.eqb_spec c "-") as [E|_]; [contradiction|].
    destruct (Ascii.eqb_spec c "+") as [E|_]; [contradiction|].
    cbn [read_digits]. now rewrite Hc.
Qed.

Lemma nonnumeric_header_tolerance_witness :
  let m := Message_default (buffer_with (chars "    ") "x") in
  headerValue m = 0 /\
  decodeHeader m = (true, {| data := data m; bodyLength_ := 0 |}) /\
  getBody (snd (decodeHeader m)) = Some [].
Proof.
  apply (proj1 nonnumeric_header_tolerance
           (Message_default (buffer_with (chars "    ") "x"))).
  - split; [reflexivity|]. cbv. split; congruence.
  - reflexivity.
Defined.

(** C8 (idempotent re-decode).  [decodeHeader] leaves the buffer as it was
    and changes the length field only, so decoding a second time returns
    the same boolean and the same frame as decoding once. *)
Theorem redecode_idempotent (m : Message) :
  data (snd (decodeHeader m)) = data m /\
  decodeHeader (snd (decodeHeader m)) = decodeHeader m.
Proof.
  split; [apply decodeHeader_data|].
  rewrite (decodeHeader_unfold (snd (decodeHeader m))).
  unfold headerValue, header_text. rewrite !decodeHeader_data.
  reflexivity.
Qed.

(** C10 (the decode result depends on the header only).  Two frames whose
    first 4 buffer characters agree get the same boolean and the same
    [bodyLength_] from [decodeHeader], whatever their body regions and
    former length fields hold. *)
Theorem decode_depends_on_header_only (m1 m2 : Message) :
  header_field m1 = header_field m2 ->
  fst (decodeHeader m1) = fst (decodeHeader m2) /\
  bodyLength_ (snd (decodeHeader m1)) = bodyLength_ (snd (decodeHeader m2)).
Proof.
  intros Hfield.
  assert (Hv : headerValue m1 = headerValue m2).
  { unfold headerValue. now rewrite !header_text_field, Hfield. }
  rewrite !decodeHeader_unfold, Hv.
  now destruct (headerValue m2 >? maxBytes).
Qed.

Lemma decode_depends_on_header_only_witness :
  let m1 := {| data := buffer_with (chars "  12") "x"; bodyLength_ := 0 |} in
  let m2 := {| data := buffer_with (chars "  12") "y"; bodyLength_ := 99 |} in
  fst (decodeHeader m1) = fst (decodeHeader m2) /\
  bodyLength_ (snd (decodeHeader m1)) = bodyLength_ (snd (decodeHeader m2)).
Proof.
  apply (decode_depends_on_header_only
           {| data := buffer_with (chars "  12") "x"; bodyLength_ := 0 |}
           {| data := buffer_with (chars "  12") "y"; bodyLength_ := 99 |}).
  reflexivity.
Defined.

(** ** The cap on [bodyLength_] *)

Lemma negative_frame_wf : wf negative_frame.
Proof. split; [reflexivity|]. cbv. split; congruence. Qed.

(** The cap holds for a frame built from a payload, is not touched by
    [encodeHeader], and holds after [decodeHeader] when the parsed value is
    not negative. *)
Lemma cap_kept_elsewhere :
  (forall raw p m, Z.of_nat (length raw) = header + maxBytes ->
     Message_of_string raw p = Some m -> 0 <= bodyLength_ m <= maxBytes) /\
  (forall m m', encodeHeader m = Some m' -> bodyLength_ m' = bodyLength_ m) /\
  (forall m, 0 <= headerValue m ->
     0 <= bodyLength_ (snd (decodeHeader m)) <= maxBytes).
Proof.
  split; [|split].
  - intros raw p m Hraw Hm. rewrite built_ok in Hm by assumption.
    inversion Hm; subst m. cbn [built bodyLength_].
    rewrite getNewBodyLength_spec. unfold maxBytes. lia.
  - intros m m'. unfold encodeHeader.
    destruct (_ <=? _); [|discriminate].
    destruct (memcpy _ _ _ _); cbn [bind]; [|discriminate].
    now inversion 1.
  - intros m Hv. pose proof (atoi_header_range m) as Hr.
    rewrite decodeHeader_unfold.
    destruct (headerValue m >? maxBytes) eqn:E; cbn [snd bodyLength_].
    + unfold maxBytes. lia.
    + rewrite Z.gtb_ltb in E. apply Z.ltb_ge in E.
      rewrite to_size_t_small; [lia|].
      unfold maxBytes in E. change (2 ^ 64) with 18446744073709551616. lia.
Qed.

(** C2 (cap on [bodyLength_]), evaluated where it breaks.  The header
    ["-1  "] parses as -1, which passes the test [headerValue > maxBytes];
    the assignment to the [size_t] field then stores [2^64 - 1], far above
    [maxBytes]. *)
Theorem negative_header_exceeds_cap :
  headerValue negative_frame = -1 /\
  decodeHeader negative_frame
  = (true, {| data := data negative_frame;
              bodyLength_ := 18446744073709551615 |}) /\
  maxBytes < bodyLength_ (snd (decodeHeader negative_frame)).
Proof.
  repeat split.
Qed.

(** C3 as stated fails: the header ["-1  "] parses as -1 and is accepted,
    but the length field does not hold -1. *)
Lemma negative_length_not_literal :
  ~ (forall m, wf m -> headerValue m <= 0 ->
       fst (decodeHeader m) = true /\
       bodyLength_ (snd (decodeHeader m)) = headerValue m).
Proof.
  intros H.
  destruct (H negative_frame negative_frame_wf) as [_ Hb].
  - vm_compute. discriminate.
  - vm_compute in Hb. discriminate Hb.
Qed.

(** C3, amended.  For every header whose parse yields zero, [decodeHeader]
    returns [true] and sets [bodyLength_] to exactly the parsed value. *)
Theorem zero_header_accepted (m : Message) :
  headerValue m = 0 ->
  fst (decodeHeader m) = true /\
  bodyLength_ (snd (decodeHeader m)) = headerValue m.
Proof.
  intros Hv. rewrite decodeHeader_accept; rewrite Hv; [now split|].
  unfold maxBytes. lia.
Qed.

Lemma zero_header_accepted_witness :
  let m := Message_default (buffer_with (chars "   0") "x") in
  fst (decodeHeader m) = true /\
  bodyLength_ (snd (decodeHeader m)) = headerValue m.
Proof.
  apply (zero_header_accepted (Message_default (buffer_with (chars "   0") "x"))).
  reflexivity.
Defined.

(** ** The views *)

(** X13.  Under the cap, [getData] is the header followed by the first
    [bodyLength_] characters of the body region and [getBody] is that
    prefix of the body region. *)
Lemma views_within_cap (m : Message) :
  wf m -> bodyLength_ m <= maxBytes ->
  exists full body,
    getData m = Some full /\ getBody m = Some body /\
    full = header_field m ++ body /\
    body = firstn (Z.to_nat (bodyLength_ m)) (body_region m) /\
    Z.of_nat (length full) = header + bodyLength_ m /\
    Z.of_nat (length body) = bodyLength_ m.
Proof.
  intros [Hd [Hb0 _]] Hb.
  rewrite getData_within_cap, getBody_within_cap by (assumption || lia).
  do 2 eexists. do 2 (split; [reflexivity|]).
  unfold header_field, body_region, header, maxBytes in *.
  change (Z.to_nat 4) with 4%nat.
  rewrite !length_firstn, length_skipn. repeat split; try lia.
  rewrite <- (firstn_skipn 4 (data m)) at 1.
  replace (Z.to_nat (4 + bodyLength_ m)) with (4 + Z.to_nat (bodyLength_ m))%nat
    by lia.
  rewrite firstn_app, length_firstn, (firstn_all2 (n := (4 + _)%nat))
    by (rewrite length_firstn; lia).
  do 2 f_equal. lia.
Qed.

(** C9 (view lengths), evaluated where it breaks.  After the header
    ["-1  "] has been decoded, [bodyLength_] is [2^64 - 1]; [header +
    bodyLength_] wraps to 3, so [getData] returns 3 characters, fewer than
    the header alone, and [substr] in [getBody] throws. *)
Theorem views_after_negative_header :
  let m := snd (decodeHeader negative_frame) in
  fst (decodeHeader negative_frame) = true /\
  bodyLength_ m = 18446744073709551615 /\
  getData m = Some (chars "-1 ") /\
  getBody m = None.
Proof.
  repeat split.
Qed.


(** * Further properties of the class *)

(** ** Frames built by the constructor *)

Lemma getNewBodyLength_range (p : list ascii) :
  0 <= getNewBodyLength p <= 512 /\
  getNewBodyLength p <= Z.of_nat (length p).
Proof.
  rewrite getNewBodyLength_spec. unfold maxBytes. lia.
Qed.

Lemma firstn_cap (p : list ascii) :
  firstn (Z.to_nat (getNewBodyLength p)) p = firstn 512 p.
Proof.
  rewrite getNewBodyLength_spec. unfold maxBytes.
  destruct (Z.le_gt_cases (Z.of_nat (length p)) 512) as [H|H].
  - rewrite Z.min_l, Nat2Z.id, firstn_all by lia.
    symmetry. apply firstn_all2. lia.
  - now rewrite Z.min_r by lia.
Qed.

Section Built.

Variable raw : list ascii.
Variable p : list ascii.
Hypothesis raw_size : Z.of_nat (length raw) = header + maxBytes.

Lemma built_wf : wf (built raw p).
Proof.
  split; [now apply built_size|]. pose proof (getNewBodyLength_range p) as Hl.
  cbn [built bodyLength_].
  change size_t_modulus with 18446744073709551616. lia.
Qed.

Lemma built_getData :
  getData (built raw p)
  = Some (fmt_4d (getNewBodyLength p)
            ++ firstn (Z.to_nat (getNewBodyLength p)) p).
Proof.
  pose proof (getNewBodyLength_range p) as Hl.
  rewrite getData_within_cap;
    [|now apply built_size|cbn [built bodyLength_]; unfold maxBytes; lia].
  cbn [built bodyLength_ data]. f_equal.
  pose proof (fmt_4d_length (getNewBodyLength p) ltac:(lia)) as Hf.
  unfold header.
  replace (Z.to_nat (4 + getNewBodyLength p))
    with (4 + Z.to_nat (getNewBodyLength p))%nat by lia.
  rewrite firstn_app, Hf, firstn_all2 by lia. f_equal.
  replace (4 + Z.to_nat (getNewBodyLength p) - 4)%nat
    with (Z.to_nat (getNewBodyLength p)) by lia.
  apply firstn_exact. rewrite length_firstn. lia.
Qed.

End Built.

(** X1.  The constructor succeeds for every payload.  The frame it builds
    is well formed, its length field is [min (size, 512)], its header
    region is that length right-justified, its body region starts with the
    first [bodyLength_] characters of the payload, and the buffer behind
    them still holds what it held before: the constructor does not clear
    it. *)
Theorem constructor_layout (raw p : list ascii) :
  Z.of_nat (length raw) = header + maxBytes ->
  exists m,
    Message_of_string raw p = Some m /\
    wf m /\
    bodyLength_ m = Z.min (Z.of_nat (length p)) maxBytes /\
    right_justified (bodyLength_ m) (header_field m) /\
    firstn (Z.to_nat (bodyLength_ m)) (body_region m) = firstn 512 p /\
    skipn (4 + Z.to_nat (bodyLength_ m)) (data m)
    = skipn (4 + Z.to_nat (bodyLength_ m)) raw.
Proof.
  intros Hraw. exists (built raw p).
  pose proof (getNewBodyLength_range p) as Hl.
  pose proof (fmt_4d_length (getNewBodyLength p) ltac:(lia)) as Hf.
  split; [now apply built_ok|]. split; [now apply built_wf|].
  split; [apply getNewBodyLength_spec|].
  rewrite built_body_region. cbn [built bodyLength_ data].
  split; [|split].
  - unfold header_field. cbn [built data]. change (Z.to_nat header) with 4%nat.
    rewrite (firstn_exact _ _ 4 Hf). apply fmt_4d_right_justified. lia.
  - rewrite firstn_exact by (rewrite length_firstn; lia). apply firstn_cap.
  - rewrite app_assoc. apply skipn_exact.
    rewrite length_app, Hf, length_firstn. lia.
Qed.

Lemma constructor_layout_witness :
  exists m,
    Message_of_string (buffer_with [] "x") (chars "hi") = Some m /\
    wf m /\
    bodyLength_ m = Z.min (Z.of_nat (length (chars "hi"))) maxBytes /\
    right_justified (bodyLength_ m) (header_field m) /\
    firstn (Z.to_nat (bodyLength_ m)) (body_region m) = firstn 512 (chars "hi") /\
    skipn (4 + Z.to_nat (bodyLength_ m)) (data m)
    = skipn (4 + Z.to_nat (bodyLength_ m)) (buffer_with [] "x").
Proof.
  apply (constructor_layout (buffer_with [] "x") (chars "hi")). reflexivity.
Defined.

(** X2.  What [getData] and [getBody] return for a frame built by the
    constructor depends on the payload only, never on what the buffer held
    before: [getData] is a 4-character header followed by the first 512
    characters of the payload, [getBody] is those characters. *)
Theorem built_views_ignore_old_buffer (raw1 raw2 p : list ascii) (m1 m2 : Message) :
  Z.of_nat (length raw1) = header + maxBytes ->
  Z.of_nat (length raw2) = header + maxBytes ->
  Message_of_string raw1 p = Some m1 ->
  Message_of_string raw2 p = Some m2 ->
  exists hdr,
    length hdr = 4%nat /\
    getData m1 = Some (hdr ++ firstn 512 p) /\
    getData m2 = Some (hdr ++ firstn 512 p) /\
    getBody m1 = Some (firstn 512 p) /\
    getBody m2 = Some (firstn 512 p).
Proof.
  intros H1 H2 E1 E2.
  rewrite built_ok in E1, E2 by assumption.
  injection E1 as <-. injection E2 as <-.
  pose proof (getNewBodyLength_range p) as Hl.
  exists (fmt_4d (getNewBodyLength p)).
  rewrite !built_getData, !built_getBody, firstn_cap by assumption.
  split; [apply fmt_4d_length; lia|]. repeat split.
Qed.

Lemma built_views_ignore_old_buffer_witness :
  exists hdr,
    length hdr = 4%nat /\
    getData (built (buffer_with [] "x") (chars "hi"))
    = Some (hdr ++ firstn 512 (chars "hi")) /\
    getData (built (buffer_with [] "y") (chars "hi"))
    = Some (hdr ++ firstn 512 (chars "hi")) /\
    getBody (built (buffer_with [] "x") (chars "hi"))
    = Some (firstn 512 (chars "hi")) /\
    getBody (built (buffer_with [] "y") (chars "hi"))
    = Some (firstn 512 (chars "hi")).
Proof.
  apply (built_views_ignore_old_buffer
           (buffer_with [] "x") (buffer_with [] "y") (chars "hi"));
    reflexivity.
Defined.

(** ** Frames on the wire *)

Lemma fmt_4d_inj (a b : Z) :
  0 <= a <= 9999 -> 0 <= b <= 9999 -> fmt_4d a = fmt_4d b -> a = b.
Proof.
  intros Ha Hb E.
  rewrite <- (atoi_fmt_4d a Ha []), <- (atoi_fmt_4d b Hb []). now rewrite E.
Qed.

Lemma app_same_length {A : Type} (l1 l2 r1 r2 : list A) :
  length l1 = length l2 -> l1 ++ r1 = l2 ++ r2 -> l1 = l2 /\ r1 = r2.
Proof.
  intros Hl E. split.
  - apply (f_equal (firstn (length l1))) in E.
    rewrite firstn_exact in E by reflexivity.
    now rewrite Hl, firstn_exact in E by reflexivity.
  - apply (f_equal (skipn (length l1))) in E.
    rewrite skipn_exact in E by reflexivity.
    now rewrite Hl, skipn_exact in E by reflexivity.
Qed.

(** X3.  The frames the constructor builds delimit themselves: when the
    bytes of one frame followed by anything equal the bytes of another
    frame followed by anything, the two frames carry the same body and the
    two remainders are equal.  For payloads of at most 512 characters the
    payloads themselves are equal. *)
Theorem frames_self_delimiting
  (raw1 raw2 p q : list ascii) (m1 m2 : Message) (w1 w2 r1 r2 : list ascii) :
  Z.of_nat (length raw1) = header + maxBytes ->
  Z.of_nat (length raw2) = header + maxBytes ->
  Message_of_string raw1 p = Some m1 -> getData m1 = Some w1 ->
  Message_of_string raw2 q = Some m2 -> getData m2 = Some w2 ->
  w1 ++ r1 = w2 ++ r2 ->
  w1 = w2 /\ r1 = r2 /\ firstn 512 p = firstn 512 q /\
  (Z.of_nat (length p) <= maxBytes -> Z.of_nat (length q) <= maxBytes -> p = q).
Proof.
  intros H1 H2 E1 G1 E2 G2 Hw.
  rewrite built_ok in E1, E2 by assumption.
  injection E1 as <-. injection E2 as <-.
  rewrite built_getData in G1, G2 by assumption.
  injection G1 as <-. injection G2 as <-.
  pose proof (getNewBodyLength_range p) as Hp.
  pose proof (getNewBodyLength_range q) as Hq.
  pose proof (fmt_4d_length (getNewBodyLength p) ltac:(lia)) as Fp.
  pose proof (fmt_4d_length (getNewBodyLength q) ltac:(lia)) as Fq.
  rewrite <- !app_assoc in Hw.
  apply app_same_length in Hw as [Eh Hw']; [|congruence].
  apply fmt_4d_inj in Eh; [|lia|lia].
  apply app_same_length in Hw' as [Eb Er]; [|rewrite !length_firstn; lia].
  assert (Ecap : firstn 512 p = firstn 512 q)
    by (rewrite <- (firstn_cap p), <- (firstn_cap q); exact Eb).
  split; [now rewrite Eb, Eh|]. split; [exact Er|]. split; [exact Ecap|].
  unfold maxBytes. intros Lp Lq.
  rewrite (firstn_all2 (n := 512) p), (firstn_all2 (n := 512) q) in Ecap by lia.
  exact Ecap.
Qed.

Lemma frames_self_delimiting_witness :
  chars "   2hi" = chars "   2hi" /\ chars "   1x" = chars "   1x" /\
  firstn 512 (chars "hi") = firstn 512 (chars "hi") /\
  (Z.of_nat (length (chars "hi")) <= maxBytes ->
   Z.of_nat (length (chars "hi")) <= maxBytes -> chars "hi" = chars "hi").
Proof.
  apply (frames_self_delimiting
           (buffer_with [] "x") (buffer_with [] "y") (chars "hi") (chars "hi")
           (built (buffer_with [] "x") (chars "hi"))
           (built (buffer_with [] "y") (chars "hi"))
           (chars "   2hi") (chars "   2hi") (chars "   1x") (chars "   1x"));
    reflexivity.
Defined.

(** X4.  Sender to receiver.  When a receive buffer starts with the bytes
    [getData] returned for a frame built from [p], [decodeHeader] on the
    receiving frame returns [true] and sets [bodyLength_] to
    [min (size, 512)], whatever the length field held before and whatever
    follows in the buffer, and [getBody] then returns the first 512
    characters of [p]. *)
Theorem transfer_round_trip
  (raw p wire : list ascii) (sender receiver : Message) :
  Z.of_nat (length raw) = header + maxBytes ->
  Message_of_string raw p = Some sender ->
  getData sender = Some wire ->
  Z.of_nat (length (data receiver)) = header + maxBytes ->
  firstn (length wire) (data receiver) = wire ->
  decodeHeader receiver
  = (true, {| data := data receiver;
              bodyLength_ := Z.min (Z.of_nat (length p)) maxBytes |}) /\
  getBody (snd (decodeHeader receiver)) = Some (firstn 512 p).
Proof.
  intros Hraw Es Gs Hr Hw.
  rewrite built_ok in Es by assumption. injection Es as <-.
  rewrite built_getData in Gs by assumption. injection Gs as <-.
  pose proof (getNewBodyLength_range p) as Hp.
  pose proof (fmt_4d_length (getNewBodyLength p) ltac:(lia)) as Hf.
  set (n := getNewBodyLength p) in *.
  assert (Hdata : data receiver
                  = fmt_4d n ++ firstn (Z.to_nat n) p
                      ++ skipn (4 + Z.to_nat n) (data receiver)).
  { rewrite <- (firstn_skipn (4 + Z.to_nat n) (data receiver)) at 1.
    rewrite app_assoc. f_equal. etransitivity; [|exact Hw]. f_equal.
    rewrite length_app, Hf, length_firstn. lia. }
  assert (Hv : headerValue receiver = n).
  { unfold headerValue.
    replace receiver
      with {| data := data receiver; bodyLength_ := bodyLength_ receiver |}
      by now destruct receiver.
    rewrite Hdata, header_text_fmt_4d by lia. apply atoi_fmt_4d. lia. }
  assert (Hdec : decodeHeader receiver
                 = (true, {| data := data receiver; bodyLength_ := n |})).
  { rewrite decodeHeader_accept; rewrite Hv; [reflexivity|unfold maxBytes; lia]. }
  rewrite Hdec. unfold n at 1. rewrite getNewBodyLength_spec.
  split; [reflexivity|]. cbn [snd].
  rewrite getBody_within_cap; cbn [data bodyLength_];
    [|exact Hr|unfold maxBytes; lia].
  f_equal. rewrite Hdata. rewrite (skipn_exact _ _ 4 Hf).
  rewrite firstn_exact by (rewrite length_firstn; lia). apply firstn_cap.
Qed.

Lemma transfer_round_trip_witness :
  let receiver := {| data := buffer_with (chars "   2hi") "z";
                     bodyLength_ := 77 |} in
  decodeHeader receiver
  = (true, {| data := data receiver;
              bodyLength_ := Z.min (Z.of_nat (length (chars "hi"))) maxBytes |}) /\
  getBody (snd (decodeHeader receiver)) = Some (firstn 512 (chars "hi")).
Proof.
  apply (transfer_round_trip (buffer_with [] "x") (chars "hi") (chars "   2hi")
           (built (buffer_with [] "x") (chars "hi"))
           {| data := buffer_with (chars "   2hi") "z"; bodyLength_ := 77 |});
    reflexivity.
Defined.

(** X5.  [encodeHeader] followed by [decodeHeader].  For a length field in
    [0, 9999] the header that [encodeHeader] writes parses back to the
    length field.  Up to 512 [decodeHeader] accepts it and leaves the frame
    as it is; from 513 on [decodeHeader] rejects the header that
    [encodeHeader] has just written and resets the length field to 0. *)
Theorem encode_then_decode (m : Message) :
  wf m -> 0 <= bodyLength_ m <= 9999 ->
  exists m',
    encodeHeader m = Some m' /\
    headerValue m' = bodyLength_ m /\
    (bodyLength_ m <= maxBytes -> decodeHeader m' = (true, m')) /\
    (maxBytes < bodyLength_ m ->
     decodeHeader m' = (false, {| data := data m'; bodyLength_ := 0 |})).
Proof.
  intros [Hd _] Hb. unfold header, maxBytes in Hd.
  rewrite encodeHeader_small by lia. eexists. split; [reflexivity|].
  assert (Hv : headerValue
                 {| data := fmt_4d (bodyLength_ m) ++ skipn 4 (data m);
                    bodyLength_ := bodyLength_ m |} = bodyLength_ m).
  { unfold headerValue. rewrite header_text_fmt_4d by lia.
    apply atoi_fmt_4d. lia. }
  split; [exact Hv|]. split; intros Hc.
  - rewrite decodeHeader_accept; rewrite Hv; [reflexivity|lia].
  - rewrite decodeHeader_unfold, Hv.
    now replace (bodyLength_ m >? maxBytes) with true
      by (symmetry; apply Z.gtb_lt; lia).
Qed.

Lemma encode_then_decode_witness :
  exists m',
    encodeHeader {| data := buffer_with [] "x"; bodyLength_ := 600 |} = Some m' /\
    headerValue m' = 600 /\
    (600 <= maxBytes -> decodeHeader m' = (true, m')) /\
    (maxBytes < 600 ->
     decodeHeader m' = (false, {| data := data m'; bodyLength_ := 0 |})).
Proof.
  apply (encode_then_decode {| data := buffer_with [] "x"; bodyLength_ := 600 |}).
  - split; [reflexivity|]. cbv. split; congruence.
  - cbv. split; congruence.
Defined.

(** ** [encodeHeader] on every length field *)

Section Signed.

Lemma digits_rec_grows (fuel : nat) :
  forall n acc, (length acc <= length (digits_rec fuel n acc))%nat.
Proof.
  induction fuel as [|f IH]; intros n acc; cbn [digits_rec]; [lia|].
  destruct (n <? 10); [simpl; lia|].
  specialize (IH (n / 10) (digit_char (n mod 10) :: acc)). simpl in IH. lia.
Qed.

(** A number from [10 ^ k] on has more than [k] digits. *)
Lemma digits_rec_long (fuel : nat) :
  forall (k : nat) (n : Z) (acc : list ascii),
    (k < fuel)%nat -> 10 ^ Z.of_nat k <= n ->
    (k + 1 + length acc <= length (digits_rec fuel n acc))%nat.
Proof.
  induction fuel as [|f IH]; intros k n acc Hk Hn; [lia|].
  cbn [digits_rec]. destruct (n <? 10) eqn:E.
  - apply Z.ltb_lt in E. destruct k as [|k']; [simpl; lia|].
    rewrite Nat2Z.inj_succ, Z.pow_succ_r in Hn by lia.
    assert (0 < 10 ^ Z.of_nat k') by (apply Z.pow_pos_nonneg; lia). lia.
  - apply Z.ltb_ge in E. destruct k as [|k'].
    + pose proof (digits_rec_grows f (n / 10) (digit_char (n mod 10) :: acc)) as G.
      simpl in G. lia.
    + specialize (IH k' (n / 10) (digit_char (n mod 10) :: acc) ltac:(lia)).
      rewrite Nat2Z.inj_succ, Z.pow_succ_r in Hn by lia.
      assert (10 ^ Z.of_nat k' <= n / 10) by (apply Z.div_le_lower_bound; lia).
      specialize (IH ltac:(assumption)). simpl in IH. lia.
Qed.

Lemma to_int_range (z : Z) : - 2 ^ 31 <= to_int z < 2 ^ 31.
Proof.
  unfold to_int, int_modulus. change (2 ^ 32 / 2) with (2 ^ 31).
  pose proof (Z.mod_pos_bound (z + 2 ^ 31) (2 ^ 32) ltac:(lia)).
  change (2 ^ 32) with (2 ^ 31 + 2 ^ 31) in *. lia.
Qed.

(** Storing an [int] in a [size_t] and reading it back as an [int]. *)
Lemma to_int_to_size_t (v : Z) :
  - 2 ^ 31 <= v < 2 ^ 31 -> to_int (to_size_t v) = v.
Proof.
  intros Hv. unfold to_int, to_size_t, size_t_modulus, int_modulus.
  change (2 ^ 32 / 2) with (2 ^ 31).
  rewrite <- (to_int_small v Hv) at 2. unfold to_int, int_modulus.
  change (2 ^ 32 / 2) with (2 ^ 31). f_equal.
  rewrite <- (Z.mod_mod_divide (v + 2 ^ 31) (2 ^ 64) (2 ^ 32))
    by (exists (2 ^ 32); reflexivity).
  rewrite <- (Z.mod_mod_divide (v mod 2 ^ 64 + 2 ^ 31) (2 ^ 64) (2 ^ 32))
    by (exists (2 ^ 32); reflexivity).
  f_equal. rewrite Z.add_mod_idemp_l by lia. reflexivity.
Qed.

Lemma fmt_4d_min_width (v : Z) :
  length (fmt_4d v) = Nat.max 4 (length (fmt_d v)).
Proof.
  unfold fmt_4d. rewrite length_app, repeat_length. lia.
Qed.

(** [%d] needs at most 4 characters exactly on [-999, 9999]. *)
Lemma fmt_d_width (v : Z) :
  - 2 ^ 31 <= v < 2 ^ 31 ->
  ((length (fmt_d v) <= 4)%nat <-> -999 <= v <= 9999).
Proof.
  intros Hv. change (2 ^ 31) with 2147483648 in Hv. unfold fmt_d.
  destruct (v <? 0) eqn:E; [apply Z.ltb_lt in E|apply Z.ltb_ge in E];
    cbn [length]; unfold decimal.
  - split; intros H.
    + destruct (Z.le_gt_cases 1000 (- v)) as [L|L]; [|lia].
      pose proof (digits_rec_long 10 3 (- v) [] ltac:(lia)) as G.
      change (10 ^ Z.of_nat 3) with 1000 in G. specialize (G L).
      cbn [length] in G. lia.
    + pose proof (digits_rec_length 10 3 (- v) [] ltac:(lia)) as G.
      change (10 ^ Z.of_nat 3) with 1000 in G. specialize (G ltac:(lia)).
      cbn [length] in G. lia.
  - split; intros H.
    + destruct (Z.le_gt_cases 10000 v) as [L|L]; [|lia].
      pose proof (digits_rec_long 10 4 v [] ltac:(lia)) as G.
      change (10 ^ Z.of_nat 4) with 10000 in G. specialize (G L).
      cbn [length] in G. lia.
    + pose proof (digits_rec_length 10 4 v [] ltac:(lia)) as G.
      change (10 ^ Z.of_nat 4) with 10000 in G. specialize (G ltac:(lia)).
      cbn [length] in G. lia.
Qed.

Variable v : Z.
Hypothesis v_range : -999 <= v <= 9999.

Lemma fmt_4d_width : length (fmt_4d v) = 4%nat.
Proof.
  rewrite fmt_4d_min_width.
  pose proof (proj2 (fmt_d_width v ltac:(change (2 ^ 31) with 2147483648; lia))
                v_range).
  lia.
Qed.

Lemma fmt_d_no_NUL : Forall (fun c => c <> NUL) (fmt_d v).
Proof.
  assert (Hdec : forall n, Forall (fun c => c <> NUL) (decimal n)).
  { intros n. eapply Forall_impl;
      [|apply (digits_rec_all_digits 10 n []); constructor].
    intros c Hc. now apply digit_not_NUL. }
  unfold fmt_d. destruct (v <? 0); [|apply Hdec].
  constructor; [discriminate|apply Hdec].
Qed.

Lemma fmt_4d_signed_no_NUL : Forall (fun c => c <> NUL) (fmt_4d v).
Proof.
  unfold fmt_4d. apply Forall_app. split; [|apply fmt_d_no_NUL].
  apply Forall_forall. intros c Hc%repeat_spec. now subst c.
Qed.

(** [atoi] reads back what [%4d] wrote, sign included. *)
Lemma atoi_fmt_4d_signed (r : list ascii) : atoi (fmt_4d v ++ NUL :: r) = v.
Proof.
  destruct (Z.le_gt_cases 0 v) as [Hpos|Hneg]; [apply atoi_fmt_4d; lia|].
  unfold fmt_4d, fmt_d. replace (v <? 0) with true by (symmetry; apply Z.ltb_lt; lia).
  rewrite <- app_assoc, atoi_cases, skip_space_pad. cbn [app skip_space].
  change (isspace "-") with false. cbv iota.
  change (Ascii.eqb "-" "-") with true. cbv iota.
  rewrite read_digits_decimal by lia. lia.
Qed.

Lemma header_text_signed (rest : list ascii) (b : Z) :
  header_text {| data := fmt_4d v ++ rest; bodyLength_ := b |}
  = fmt_4d v ++ [NUL].
Proof.
  unfold header_text. cbn [data]. change (Z.to_nat header) with 4%nat.
  pose proof (strncpy_prefix _ rest fmt_4d_signed_no_NUL) as H.
  rewrite fmt_4d_width in H. now rewrite H.
Qed.

End Signed.

Lemma encodeHeader_signed (m : Message) :
  (4 <= length (data m))%nat -> -999 <= to_int (bodyLength_ m) <= 9999 ->
  encodeHeader m =
    Some {| data := fmt_4d (to_int (bodyLength_ m)) ++ skipn 4 (data m);
            bodyLength_ := bodyLength_ m |}.
Proof.
  intros Hlen Hv. unfold encodeHeader.
  pose proof (fmt_4d_width _ Hv) as Hf. rewrite Hf.
  change (Z.of_nat 4 + 1 <=? header + 1) with true. cbv iota.
  change (Z.to_nat header) with 4%nat.
  unfold memcpy. rewrite length_app, Hf. cbn [length Nat.add].
  replace (4 <=? 5)%nat with true by reflexivity.
  replace (4 <=? length (data m))%nat with true
    by (symmetry; apply Nat.leb_le; lia).
  cbn [andb bind]. rewrite (firstn_exact _ _ 4 Hf). reflexivity.
Qed.

(** X6.  [encodeHeader] overruns its scratch array [new_header] exactly
    when the length field, read as an [int], lies outside [-999, 9999]:
    then [%4d] needs more than 4 characters.  Whenever it does not overrun,
    it changes the 4 header characters only. *)
Theorem encodeHeader_overrun_iff (m : Message) :
  wf m ->
  (encodeHeader m = None <->
   to_int (bodyLength_ m) < -999 \/ 9999 < to_int (bodyLength_ m)) /\
  (forall m', encodeHeader m = Some m' ->
     bodyLength_ m' = bodyLength_ m /\
     body_region m' = body_region m /\
     length (data m') = length (data m) /\
     length (fmt_d (to_int (bodyLength_ m))) <= 4)%nat.
Proof.
  intros [Hd _]. unfold header, maxBytes in Hd.
  set (v := to_int (bodyLength_ m)).
  pose proof (to_int_range (bodyLength_ m)) as Hr. fold v in Hr.
  destruct (Z.le_gt_cases (-999) v) as [Hlo|Hlo];
    [destruct (Z.le_gt_cases v 9999) as [Hhi|Hhi]|].
  - pose proof (fmt_4d_width v ltac:(lia)) as Hf.
    rewrite encodeHeader_signed by (fold v; lia). fold v. split.
    + split; [discriminate|lia].
    + intros m' E.
      assert (m' = {| data := fmt_4d v ++ skipn 4 (data m);
                      bodyLength_ := bodyLength_ m |}) by congruence.
      subst m'. cbn [data bodyLength_].
      unfold body_region. cbn [data]. change (Z.to_nat header) with 4%nat.
      rewrite (skipn_exact _ _ 4 Hf), length_app, Hf, length_skipn.
      repeat split; try lia. apply (fmt_d_width v Hr). lia.
  - assert (E : encodeHeader m = None).
    { unfold encodeHeader. fold v. rewrite fmt_4d_min_width.
      assert (~ (length (fmt_d v) <= 4)%nat)
        by (rewrite (fmt_d_width v Hr); lia).
      replace (_ <=? _) with false; [reflexivity|].
      symmetry. apply Z.leb_gt. unfold header. lia. }
    rewrite E. split; [split; [lia|reflexivity]|discriminate].
  - assert (E : encodeHeader m = None).
    { unfold encodeHeader. fold v. rewrite fmt_4d_min_width.
      assert (~ (length (fmt_d v) <= 4)%nat)
        by (rewrite (fmt_d_width v Hr); lia).
      replace (_ <=? _) with false; [reflexivity|].
      symmetry. apply Z.leb_gt. unfold header. lia. }
    rewrite E. split; [split; [lia|reflexivity]|discriminate].
Qed.

Lemma encodeHeader_overrun_iff_witness :
  encodeHeader {| data := buffer_with [] "x"; bodyLength_ := 10000 |} = None.
Proof.
  assert (Hwf : wf {| data := buffer_with [] "x"; bodyLength_ := 10000 |}).
  { split; [reflexivity|]. cbv. split; congruence. }
  apply (proj2 (proj1 (encodeHeader_overrun_iff _ Hwf))).
  right. reflexivity.
Defined.

(** ** [decodeHeader] on every header *)

(** X7.  Decode, encode, decode.  Whatever header a well-formed frame
    holds, after [decodeHeader] the call [encodeHeader] never overruns, and
    the header it writes is accepted by [decodeHeader] with the same length
    field; the frame is then a fixed point of [decodeHeader]. *)
Theorem reencode_after_decode (m : Message) :
  wf m ->
  exists m2,
    encodeHeader (snd (decodeHeader m)) = Some m2 /\
    bodyLength_ m2 = bodyLength_ (snd (decodeHeader m)) /\
    decodeHeader m2 = (true, m2).
Proof.
  intros [Hd _]. unfold header, maxBytes in Hd.
  pose proof (atoi_header_range m) as Hr.
  rewrite decodeHeader_unfold.
  assert (Hstep : forall v, -999 <= v <= 512 ->
            exists m2,
              encodeHeader {| data := data m; bodyLength_ := to_size_t v |}
              = Some m2 /\
              bodyLength_ m2 = to_size_t v /\ decodeHeader m2 = (true, m2)).
  { intros v Hv.
    assert (Hi : to_int (to_size_t v) = v)
      by (apply to_int_to_size_t; change (2 ^ 31) with 2147483648; lia).
    rewrite encodeHeader_signed; cbn [data bodyLength_]; rewrite ?Hi; try lia.
    eexists. split; [reflexivity|]. split; [reflexivity|].
    rewrite decodeHeader_unfold. unfold headerValue.
    rewrite header_text_signed, atoi_fmt_4d_signed by lia.
    now replace (v >? maxBytes) with false
      by (symmetry; rewrite Z.gtb_ltb; apply Z.ltb_ge; unfold maxBytes; lia). }
  destruct (headerValue m >? maxBytes) eqn:E; cbn [snd].
  - apply (Hstep 0). lia.
  - apply Hstep. rewrite Z.gtb_ltb in E. apply Z.ltb_ge in E.
    unfold maxBytes in E. lia.
Qed.

Lemma reencode_after_decode_witness :
  exists m2,
    encodeHeader (snd (decodeHeader negative_frame)) = Some m2 /\
    bodyLength_ m2 = bodyLength_ (snd (decodeHeader negative_frame)) /\
    decodeHeader m2 = (true, m2).
Proof.
  apply (reencode_after_decode negative_frame).
  split; [reflexivity|]. cbv. split; congruence.
Defined.

(** X8.  The length field after [decodeHeader] is at most [maxBytes]
    exactly when the parsed value is not negative.  A negative value [v] is
    accepted and leaves [2^64 + v], which is at least [2^64 - 999]. *)
Theorem decode_cap_iff (m : Message) :
  (bodyLength_ (snd (decodeHeader m)) <= maxBytes <-> 0 <= headerValue m) /\
  (headerValue m < 0 ->
   fst (decodeHeader m) = true /\
   bodyLength_ (snd (decodeHeader m)) = size_t_modulus + headerValue m /\
   size_t_modulus - 999 <= bodyLength_ (snd (decodeHeader m))).
Proof.
  pose proof (atoi_header_range m) as Hr.
  rewrite decodeHeader_unfold. unfold maxBytes, to_size_t, size_t_modulus.
  change (2 ^ 64) with 18446744073709551616.
  destruct (headerValue m >? 512) eqn:E; cbn [fst snd bodyLength_].
  - apply Z.gtb_lt in E. split; [lia|lia].
  - rewrite Z.gtb_ltb in E. apply Z.ltb_ge in E.
    destruct (Z.le_gt_cases 0 (headerValue m)) as [Hp|Hn].
    + rewrite Z.mod_small by lia. split; [lia|lia].
    + assert (Hm : headerValue m mod 18446744073709551616
                   = 18446744073709551616 + headerValue m).
      { symmetry. apply (Z.mod_unique _ _ (-1)); lia. }
      rewrite Hm. split; [lia|]. intros _. repeat split; lia.
Qed.

Lemma decode_cap_iff_witness :
  fst (decodeHeader negative_frame) = true /\
  bodyLength_ (snd (decodeHeader negative_frame))
  = size_t_modulus + headerValue negative_frame /\
  size_t_modulus - 999 <= bodyLength_ (snd (decodeHeader negative_frame)).
Proof.
  apply (proj2 (decode_cap_iff negative_frame)). reflexivity.
Defined.

(** X9.  The value [atoi] reads from the 4 header characters lies in
    [-999, 9999], and both ends are reached: [atoi] cannot overflow an
    [int] here. *)
Theorem header_parse_bounds :
  (forall m, -999 <= headerValue m <= 9999) /\
  (exists m, wf m /\ headerValue m = -999) /\
  (exists m, wf m /\ headerValue m = 9999).
Proof.
  split; [exact atoi_header_range|]. split.
  - exists (Message_default (buffer_with (chars "-999") "x")).
    split; [|reflexivity]. split; [reflexivity|]. cbv. split; congruence.
  - exists (Message_default (buffer_with (chars "9999") "x")).
    split; [|reflexivity]. split; [reflexivity|]. cbv. split; congruence.
Qed.

(** X10.  A header made of white space followed by decimal digits parses
    as the value of the digits, leading zeros and white space other than
    the space character included; [decodeHeader] accepts it when the value
    is at most 512.  The decoder so accepts headers such as ["0012"] that
    [encodeHeader] never writes. *)
Theorem padded_digits_header (m : Message) (ws ds : list ascii) :
  header_field m = ws ++ ds ->
  Forall (fun c => isspace c = true) ws ->
  Forall (fun c => isdigit c = true) ds -> ds <> [] ->
  headerValue m = numeral_value ds /\
  0 <= numeral_value ds /\
  (numeral_value ds <= maxBytes ->
   decodeHeader m
   = (true, {| data := data m; bodyLength_ := numeral_value ds |})).
Proof.
  intros Hh Hws Hds Hne.
  assert (Hv : headerValue m = numeral_value ds).
  { rewrite headerValue_parse, Hh, <- app_assoc.
    unfold atoi. rewrite skip_space_app by exact Hws.
    fold (atoi (ds ++ [NUL])).
    destruct ds as [|d ds']; [contradiction|]. inversion Hds; subst.
    cbn [app]. rewrite atoi_digit_head by assumption.
    apply (read_digits_stop (d :: ds')); [assumption|reflexivity]. }
  assert (Hpos : 0 <= numeral_value ds).
  { pose proof (value_bounds ds Hds 0 ltac:(lia)) as Hb.
    unfold numeral_value. unfold digit_step in Hb. lia. }
  split; [exact Hv|]. split; [exact Hpos|]. intros Hc.
  rewrite decodeHeader_accept; rewrite Hv; [reflexivity|lia].
Qed.

Lemma padded_digits_header_witness :
  let m := Message_default (buffer_with (chars "0012") "x") in
  headerValue m = numeral_value (chars "0012") /\
  0 <= numeral_value (chars "0012") /\
  (numeral_value (chars "0012") <= maxBytes ->
   decodeHeader m
   = (true, {| data := data m; bodyLength_ := numeral_value (chars "0012") |})).
Proof.
  apply (padded_digits_header
           (Message_default (buffer_with (chars "0012") "x")) [] (chars "0012")).
  - reflexivity.
  - constructor.
  - repeat constructor.
  - discriminate.
Defined.

(** X11.  A NUL inside the header region ends the header: what stands
    behind it has no effect on the parsed value, nor on what
    [decodeHeader] returns and stores. *)
Theorem header_ends_at_NUL (m1 m2 : Message) (pre r1 r2 : list ascii) :
  header_field m1 = pre ++ NUL :: r1 ->
  header_field m2 = pre ++ NUL :: r2 ->
  headerValue m1 = atoi (pre ++ [NUL]) /\
  fst (decodeHeader m1) = fst (decodeHeader m2) /\
  bodyLength_ (snd (decodeHeader m1)) = bodyLength_ (snd (decodeHeader m2)).
Proof.
  intros H1 H2.
  assert (Hv : forall m r, header_field m = pre ++ NUL :: r ->
                 headerValue m = atoi (pre ++ [NUL])).
  { intros m r Hm. rewrite headerValue_parse, Hm, <- app_assoc.
    cbn [app]. apply atoi_NUL. }
  split; [now apply (Hv m1 r1)|].
  rewrite !decodeHeader_unfold, (Hv m1 r1 H1), (Hv m2 r2 H2).
  now destruct (_ >? _).
Qed.

Lemma header_ends_at_NUL_witness :
  let m1 := Message_default (buffer_with ["7"; NUL; "9"; "9"] "x") in
  let m2 := Message_default (buffer_with ["7"; NUL; "a"; "b"] "y") in
  headerValue m1 = atoi ["7"; NUL] /\
  fst (decodeHeader m1) = fst (decodeHeader m2) /\
  bodyLength_ (snd (decodeHeader m1)) = bodyLength_ (snd (decodeHeader m2)).
Proof.
  apply (header_ends_at_NUL
           (Message_default (buffer_with ["7"; NUL; "9"; "9"] "x"))
           (Message_default (buffer_with ["7"; NUL; "a"; "b"] "y"))
           ["7"] ["9"; "9"] ["a"; "b"]); reflexivity.
Defined.

Lemma decodeHeader_negative (m : Message) :
  headerValue m < 0 ->
  decodeHeader m
  = (true, {| data := data m;
              bodyLength_ := 18446744073709551616 + headerValue m |}).
Proof.
  intros Hn. pose proof (atoi_header_range m) as Hr.
  rewrite decodeHeader_unfold. unfold maxBytes.
  replace (headerValue m >? 512) with false
    by (symmetry; rewrite Z.gtb_ltb; apply Z.ltb_ge; lia).
  do 2 f_equal. unfold to_size_t, size_t_modulus.
  change (2 ^ 64) with 18446744073709551616.
  symmetry. apply (Z.mod_unique _ _ (-1)); lia.
Qed.

(** X12.  The views after a negative header has been accepted.  [getBody]
    always throws.  [getData] returns the first [4 + v] characters of the
    buffer, fewer than a header, when the parsed value [v] is -4 or more,
    and fails on the length when [v] is below -4. *)
Theorem views_after_negative_decode (m : Message) :
  wf m -> headerValue m < 0 ->
  getBody (snd (decodeHeader m)) = None /\
  (-4 <= headerValue m ->
   getData (snd (decodeHeader m))
   = Some (firstn (Z.to_nat (4 + headerValue m)) (data m))) /\
  (headerValue m < -4 -> getData (snd (decodeHeader m)) = None).
Proof.
  intros [Hd _] Hn. unfold header, maxBytes in Hd.
  pose proof (atoi_header_range m) as Hr.
  rewrite decodeHeader_negative by assumption. cbn [snd].
  set (v := headerValue m) in *.
  assert (Hsum : to_size_t (header + (18446744073709551616 + v))
                 = to_size_t (4 + v)).
  { unfold to_size_t, size_t_modulus, header.
    change (2 ^ 64) with 18446744073709551616.
    replace (4 + (18446744073709551616 + v))
      with (4 + v + 1 * 18446744073709551616) by lia.
    apply Z.mod_add. lia. }
  assert (Hlen : to_int (to_size_t (4 + v)) = 4 + v)
    by (apply to_int_to_size_t; change (2 ^ 31) with 2147483648; lia).
  destruct (Z.le_gt_cases (-4) v) as [Hhi|Hlo].
  - assert (Hg : getData {| data := data m;
                            bodyLength_ := 18446744073709551616 + v |}
                 = Some (firstn (Z.to_nat (4 + v)) (data m))).
    { unfold getData. cbn [data bodyLength_]. rewrite Hsum, Hlen.
      rewrite to_size_t_small
        by (change (2 ^ 64) with 18446744073709551616; lia).
      now replace (4 + v <=? Z.of_nat (length (data m))) with true
        by (symmetry; apply Z.leb_le; lia). }
    split; [|split; [intros _; exact Hg|lia]].
    unfold getBody. rewrite Hg. cbn [bind]. unfold substr, header.
    rewrite length_firstn.
    now replace (_ <? 4) with true by (symmetry; apply Z.ltb_lt; lia).
  - assert (Hg : getData {| data := data m;
                            bodyLength_ := 18446744073709551616 + v |}
                 = None).
    { unfold getData. cbn [data bodyLength_]. rewrite Hsum, Hlen.
      assert (Hw : to_size_t (4 + v) = 18446744073709551616 + (4 + v)).
      { unfold to_size_t, size_t_modulus.
        change (2 ^ 64) with 18446744073709551616.
        symmetry. apply (Z.mod_unique _ _ (-1)); lia. }
      rewrite Hw.
      now replace (_ <=? _) with false by (symmetry; apply Z.leb_gt; lia). }
    split; [|split; [lia|intros _; exact Hg]].
    unfold getBody. now rewrite Hg.
Qed.

Lemma views_after_negative_decode_witness :
  let m := Message_default (buffer_with (chars " -12") "x") in
  getBody (snd (decodeHeader m)) = None /\
  (-4 <= headerValue m ->
   getData (snd (decodeHeader m))
   = Some (firstn (Z.to_nat (4 + headerValue m)) (data m))) /\
  (headerValue m < -4 -> getData (snd (decodeHeader m)) = None).
Proof.
  apply (views_after_negative_decode
           (Message_default (buffer_with (chars " -12") "x"))).
  - split; [reflexivity|]. cbv. split; congruence.
  - reflexivity.
Defined.

(** ** The views and the console *)

Lemma views_within_cap_witness :
  exists full body,
    getData (built (buffer_with [] "x") (chars "hi")) = Some full /\
    getBody (built (buffer_with [] "x") (chars "hi")) = Some body /\
    full = header_field (built (buffer_with [] "x") (chars "hi")) ++ body /\
    body = firstn (Z.to_nat (bodyLength_ (built (buffer_with [] "x") (chars "hi"))))
             (body_region (built (buffer_with [] "x") (chars "hi"))) /\
    Z.of_nat (length full)
    = header + bodyLength_ (built (buffer_with [] "x") (chars "hi")) /\
    Z.of_nat (length body)
    = bodyLength_ (built (buffer_with [] "x") (chars "hi")).
Proof.
  apply (views_within_cap (built (buffer_with [] "x") (chars "hi"))).
  - split; [reflexivity|]. cbv. split; congruence.
  - cbv. congruence.
Defined.

Lemma getData_splits (m : Message) :
  wf m -> bodyLength_ m <= maxBytes ->
  exists body,
    getBody m = Some body /\ getData m = Some (header_field m ++ body).
Proof.
  intros [Hd [Hb0 _]] Hb.
  rewrite getData_within_cap, getBody_within_cap by (assumption || lia).
  eexists. split; [reflexivity|]. f_equal.
  unfold header_field, header, maxBytes in *. change (Z.to_nat 4) with 4%nat.
  rewrite <- (firstn_skipn 4 (data m)) at 1.
  replace (Z.to_nat (4 + bodyLength_ m)) with (4 + Z.to_nat (bodyLength_ m))%nat
    by lia.
  rewrite firstn_app, length_firstn, (firstn_all2 (n := (4 + _)%nat))
    by (rewrite length_firstn; lia).
  do 2 f_equal. lia.
Qed.

(** X14.  [printMessage] appends to the console the text
    ["Message recieved: "], then the whole frame, its 4 header characters
    included and not the body alone, then a line end; what the console held
    before is kept.  It fails exactly when [getData] does. *)
Theorem printMessage_prints_frame (m : Message) (cout : ostream) :
  (wf m -> bodyLength_ m <= maxBytes ->
   exists body,
     getBody m = Some body /\
     printMessage m cout
     = Some (cout ++ chars "Message recieved: " ++ header_field m ++ body
               ++ endl)) /\
  (printMessage m cout = None <-> getData m = None).
Proof.
  split.
  - intros Hwf Hcap.
    destruct (getData_splits m Hwf Hcap) as (body & Hb & Hg).
    exists body. split; [exact Hb|]. unfold printMessage. rewrite Hg.
    cbn [bind]. now rewrite <- !app_assoc.
  - unfold printMessage. destruct (getData m); cbn [bind];
      split; (discriminate || reflexivity).
Qed.

Lemma printMessage_prints_frame_witness :
  exists body,
    getBody (built (buffer_with [] "x") (chars "hi")) = Some body /\
    printMessage (built (buffer_with [] "x") (chars "hi")) (chars "> ")
    = Some (chars "> " ++ chars "Message recieved: "
              ++ header_field (built (buffer_with [] "x") (chars "hi"))
              ++ body ++ endl).
Proof.
  apply (proj1 (printMessage_prints_frame
                  (built (buffer_with [] "x") (chars "hi")) (chars "> "))).
  - split; [reflexivity|]. cbv. split; congruence.
  - cbv. congruence.
Defined.

(** X15.  A frame made by the default constructor has length 0 and an
    empty body, yet [getData] returns, and [printMessage] prints, the 4
    header characters of the buffer, which nothing has initialised. *)
Theorem default_frame_views (raw : list ascii) (cout : ostream) :
  Z.of_nat (length raw) = header + maxBytes ->
  getBodyLength (Message_default raw) = 0 /\
  getBody (Message_default raw) = Some [] /\
  getData (Message_default raw) = Some (firstn 4 raw) /\
  printMessage (Message_default raw) cout
  = Some (cout ++ chars "Message recieved: " ++ firstn 4 raw ++ endl).
Proof.
  intros Hraw.
  assert (Hg : getData (Message_default raw) = Some (firstn 4 raw)).
  { rewrite getData_within_cap; cbn [Message_default data bodyLength_];
      [reflexivity|exact Hraw|unfold maxBytes; lia]. }
  split; [reflexivity|]. split; [|split; [exact Hg|]].
  - rewrite getBody_within_cap; cbn [Message_default data bodyLength_];
      [reflexivity|exact Hraw|unfold maxBytes; lia].
  - unfold printMessage. now rewrite Hg.
Qed.

Lemma default_frame_views_witness :
  getBodyLength (Message_default (buffer_with [] "x")) = 0 /\
  getBody (Message_default (buffer_with [] "x")) = Some [] /\
  getData (Message_default (buffer_with [] "x"))
  = Some (firstn 4 (buffer_with [] "x")) /\
  printMessage (Message_default (buffer_with [] "x")) []
  = Some ([] ++ chars "Message recieved: " ++ firstn 4 (buffer_with [] "x")
             ++ endl).
Proof.
  apply (default_frame_views (buffer_with [] "x") []). reflexivity.
Defined.

(** ** Invariants of the buffer *)

(** X16.  No operation changes the size of the buffer or takes the length
    field out of the range of [size_t]: a well-formed frame stays well
    formed under [decodeHeader] and under a successful [encodeHeader], and
    the default constructor makes a well-formed frame. *)
Theorem wf_preserved :
  (forall m, wf m -> wf (snd (decodeHeader m))) /\
  (forall m m', wf m -> encodeHeader m = Some m' -> wf m') /\
  (forall raw, Z.of_nat (length raw) = header + maxBytes ->
     wf (Message_default raw)).
Proof.
  split; [|split].
  - intros m [Hd Hb]. split; [now rewrite decodeHeader_data|].
    rewrite decodeHeader_unfold.
    destruct (_ >? _); cbn [snd bodyLength_].
    + change size_t_modulus with 18446744073709551616. lia.
    + apply Z.mod_pos_bound. reflexivity.
  - intros m m' [Hd Hb] E. unfold encodeHeader in E.
    destruct (_ <=? _) eqn:Hw; [|discriminate].
    apply Z.leb_le in Hw. unfold header in Hw.
    pose proof (fmt_4d_min_width (to_int (bodyLength_ m))) as Hmin.
    assert (Hf : length (fmt_4d (to_int (bodyLength_ m))) = 4%nat) by lia.
    unfold memcpy in E. change (Z.to_nat header) with 4%nat in E.
    destruct (_ && _)%bool; cbn [bind] in E; [|discriminate].
    assert (m' = {| data := firstn 0 (data m)
                      ++ firstn 4 (fmt_4d (to_int (bodyLength_ m)) ++ [NUL])
                      ++ skipn (0 + 4) (data m);
                    bodyLength_ := bodyLength_ m |}) by congruence.
    subst m'. split; [|exact Hb]. cbn [data]. unfold header, maxBytes in *.
    rewrite (firstn_exact _ _ 4 Hf). cbn [firstn app Nat.add].
    rewrite length_app, Hf, length_skipn. lia.
  - intros raw Hraw. split; [exact Hraw|].
    cbn. change size_t_modulus with 18446744073709551616. lia.
Qed.

Lemma wf_preserved_witness : wf (snd (decodeHeader negative_frame)).
Proof.
  apply (proj1 wf_preserved negative_frame).
  split; [reflexivity|]. cbv. split; congruence.
Defined.

(** X17.  [encodeHeader] is idempotent: on the frame a successful call
    returns, a second call succeeds and changes nothing. *)
Theorem encodeHeader_idempotent (m m' : Message) :
  wf m -> encodeHeader m = Some m' -> encodeHeader m' = Some m'.
Proof.
  intros Hwf E. destruct Hwf as [Hd Hb]. unfold header, maxBytes in Hd.
  pose proof (to_int_range (bodyLength_ m)) as Hr.
  assert (Hv : -999 <= to_int (bodyLength_ m) <= 9999).
  { unfold encodeHeader in E. destruct (_ <=? _) eqn:Hw; [|discriminate].
    apply Z.leb_le in Hw. unfold header in Hw.
    pose proof (fmt_4d_min_width (to_int (bodyLength_ m))) as Hmin.
    apply (fmt_d_width _ Hr). lia. }
  rewrite encodeHeader_signed in E by lia.
  assert (m' = {| data := fmt_4d (to_int (bodyLength_ m)) ++ skipn 4 (data m);
                  bodyLength_ := bodyLength_ m |}) by congruence.
  subst m'. pose proof (fmt_4d_width _ Hv) as Hf.
  rewrite encodeHeader_signed; cbn [data bodyLength_];
    [|rewrite length_app, Hf; lia|exact Hv].
  now rewrite (skipn_exact _ _ 4 Hf).
Qed.

Lemma encodeHeader_idempotent_witness :
  encodeHeader (built (buffer_with [] "x") (chars "hi"))
  = Some (built (buffer_with [] "x") (chars "hi")).
Proof.
  apply (encodeHeader_idempotent
           {| data := buffer_with (chars "????hi") "x"; bodyLength_ := 2 |}
           (built (buffer_with [] "x") (chars "hi"))).
  - split; [reflexivity|]. cbv. split; congruence.
  - reflexivity.
Defined.

(** X18.  Framing the body of a frame again gives the same bytes: when
    [b] is what [getBody] returns for a frame built from [p], the frame
    built from [b] has the same [getData] and the body [b]. *)
Theorem reframe_body (raw raw' p b : list ascii) (m : Message) :
  Z.of_nat (length raw) = header + maxBytes ->
  Z.of_nat (length raw') = header + maxBytes ->
  Message_of_string raw p = Some m -> getBody m = Some b ->
  exists m',
    Message_of_string raw' b = Some m' /\
    getData m' = getData m /\ getBody m' = Some b.
Proof.
  intros Hraw Hraw' E G.
  rewrite built_ok in E by assumption.
  assert (m = built raw p) by congruence. subst m.
  rewrite built_getBody in G by assumption.
  assert (b = firstn (Z.to_nat (getNewBodyLength p)) p) by congruence.
  pose proof (getNewBodyLength_range p) as Hp.
  assert (Hlen : getNewBodyLength b = getNewBodyLength p).
  { rewrite (getNewBodyLength_spec b). subst b. rewrite length_firstn.
    unfold maxBytes. lia. }
  assert (Hb : firstn (Z.to_nat (getNewBodyLength p)) b = b).
  { subst b. rewrite firstn_firstn. f_equal. lia. }
  exists (built raw' b). split; [now apply built_ok|].
  rewrite !built_getData, built_getBody by assumption.
  rewrite Hlen, Hb. split; [|reflexivity]. now subst b.
Qed.

Lemma reframe_body_witness :
  exists m',
    Message_of_string (buffer_with [] "y") (chars "hi") = Some m' /\
    getData m' = getData (built (buffer_with [] "x") (chars "hi")) /\
    getBody m' = Some (chars "hi").
Proof.
  apply (reframe_body (buffer_with [] "x") (buffer_with [] "y")
           (chars "hi") (chars "hi")
           (built (buffer_with [] "x") (chars "hi"))); reflexivity.
Defined.
